(** * res-bot: the CUNY resolution reviewer

    A shallow embedding of [resolution_reviewer.py] and [app.py], and the
    properties of the specification that are about them.

    The program is glue code around four libraries (python-docx, tiktoken,
    the OpenAI client and Streamlit) and the Python runtime.  What those do
    is not in the repository: their behaviour is a record [Externals] that
    every definition takes as a parameter, and what the user and the
    operating system supply is a record [Session].  The state the program
    can change or show (the files, the Streamlit calls, the requests sent,
    the standard output) is a record [world] that is threaded through a
    state-and-exception monad [M].

    Python [str] values are modelled as their UTF-8 encoding
    ([String.string], one [ascii] per byte); equality, concatenation and
    containment of texts are the same in both views. *)

From Stdlib Require Import String Ascii ZArith List Bool Lia.
From stdpp Require Import gmap strings list pretty.
Import ListNotations.

Open Scope string_scope.
Open Scope list_scope.

Set Warnings "-register-all".

(* ===================================================================== *)
(** * The Python runtime                                                  *)
(* ===================================================================== *)

Module Py.

(** ** Strings *)

(** The newline character and the double quote. *)
Definition nl : string := String (ascii_of_nat 10) EmptyString.
Definition dq : string := String (ascii_of_nat 34) EmptyString.

(** [sep.join(l)] *)
Fixpoint str_join (sep : string) (l : list string) : string :=
  match l with
  | [] => ""
  | x :: rest =>
      match rest with
      | [] => x
      | _ :: _ => x +:+ sep +:+ str_join sep rest
      end
  end.

(** [s.startswith(p)] *)
Fixpoint startswith (s p : string) {struct p} : bool :=
  match p with
  | EmptyString => true
  | String a p' =>
      match s with
      | EmptyString => false
      | String b s' => Ascii.eqb a b && startswith s' p'
      end
  end.

(** [s.endswith("/")]-style test on the last character. *)
Fixpoint ends_with_char (c : ascii) (s : string) : bool :=
  match s with
  | EmptyString => false
  | String a EmptyString => Ascii.eqb a c
  | String _ s' => ends_with_char c s'
  end.

(** [c in s] for a single character. *)
Fixpoint has_char (c : ascii) (s : string) : bool :=
  match s with
  | EmptyString => false
  | String a s' => Ascii.eqb a c || has_char c s'
  end.

(** A UTF-8 continuation byte is [10xxxxxx]. *)
Definition is_continuation (c : ascii) : bool :=
  let n := nat_of_ascii c in ((128 <=? n) && (n <? 192))%nat.

(** The characters (code points) of a [str], each as a one-character
    [str]: what [for ch in s] yields.  A new character starts at every
    byte that is not a continuation byte. *)
Fixpoint codepoints_from (cur : string) (s : string) : list string :=
  match s with
  | EmptyString => [cur]
  | String c s' =>
      if is_continuation c then codepoints_from (cur +:+ String c EmptyString) s'
      else cur :: codepoints_from (String c EmptyString) s'
  end.

Definition codepoints (s : string) : list string :=
  match s with
  | EmptyString => []
  | String c s' => codepoints_from (String c EmptyString) s'
  end.

(** [bool(s)] for a [str] and for an optional [str] ([None] is falsy). *)
Definition str_truthy (s : string) : bool :=
  match s with EmptyString => false | String _ _ => true end.

Definition opt_str_truthy (o : option string) : bool :=
  match o with None => false | Some s => str_truthy s end.

(** ** Values

    The values [json.loads] can return.  A [float] is represented by its
    [repr] (["0.5"], ["1e+16"], ["nan"]); a [dict] by its items in
    insertion order (keys are unique in a [dict]; lookup takes the first
    item with the key). *)
Inductive json : Type :=
| JNull
| JBool (b : bool)
| JInt (n : Z)
| JFloat (repr : string)
| JStr (s : string)
| JList (items : list json)
| JDict (items : list (string * json)).

(** ** Exceptions *)
Inductive exn : Type :=
| KeyError (key : string)
| TypeError (msg : string)
| IndexError (msg : string)
| StopException
    (** raised by [st.stop()]; a script-control exception, not a subclass
        of [Exception] *)
| LibraryError (is_exception : bool) (msg : string)
    (** raised inside a library; [is_exception] tells whether its class
        derives from [Exception] (false for [KeyboardInterrupt],
        [SystemExit] and the like) *).

(** Whether [except Exception] catches it. *)
Definition is_Exception (e : exn) : bool :=
  match e with
  | KeyError _ | TypeError _ | IndexError _ => true
  | StopException => false
  | LibraryError b _ => b
  end.

Inductive result (A : Type) : Type :=
| Ok (a : A)
| Raise (e : exn).
Arguments Ok {A} a.
Arguments Raise {A} e.

(** [bool(v)] *)
Definition truthy (v : json) : bool :=
  match v with
  | JNull => false
  | JBool b => b
  | JInt n => negb (n =? 0)%Z
  | JFloat r => negb (String.eqb r "0.0" || String.eqb r "-0.0")
  | JStr s => str_truthy s
  | JList l => match l with [] => false | _ => true end
  | JDict l => match l with [] => false | _ => true end
  end.

(** [d[key]] on the items of a [dict]. *)
Fixpoint dict_get (items : list (string * json)) (key : string) : option json :=
  match items with
  | [] => None
  | (k, v) :: rest => if String.eqb k key then Some v else dict_get rest key
  end.

(** [type(v).__name__] *)
Definition type_name (v : json) : string :=
  match v with
  | JNull => "NoneType"
  | JBool _ => "bool"
  | JInt _ => "int"
  | JFloat _ => "float"
  | JStr _ => "str"
  | JList _ => "list"
  | JDict _ => "dict"
  end.

(** [v[key]] with a [str] key.  Only a [dict] can be subscripted by a
    [str]; the messages are CPython's. *)
Definition getitem (v : json) (key : string) : result json :=
  match v with
  | JDict items =>
      match dict_get items key with
      | Some x => Ok x
      | None => Raise (KeyError key)
      end
  | JList _ => Raise (TypeError "list indices must be integers or slices, not str")
  | JStr _ => Raise (TypeError "string indices must be integers, not 'str'")
  | _ => Raise (TypeError ("'" +:+ type_name v +:+ "' object is not subscriptable"))
  end.

(** [iter(v)], run to the end: the values a [for] loop over [v] visits. *)
Definition iterate (v : json) : result (list json) :=
  match v with
  | JList items => Ok items
  | JDict items => Ok (map (fun kv => JStr (fst kv)) items)
  | JStr s => Ok (map JStr (codepoints s))
  | _ => Raise (TypeError ("'" +:+ type_name v +:+ "' object is not iterable"))
  end.

End Py.
Import Py.

(* ===================================================================== *)
(** * The world the program runs in                                       *)
(* ===================================================================== *)

Module Env.

(** ** What a run can change or show *)

(** Where a Streamlit call draws: the page, one of the two columns of
    [st.columns(2)], or the body of an expander. *)
Inductive container : Type :=
| Page
| Column (i : nat)
| Expander (parent : container) (label : string).

(** The Streamlit calls of [app.py], with the arguments the program
    passes.  What Streamlit then draws is Streamlit's business. *)
Inductive element : Type :=
| set_page_config (page_title page_icon layout : string)
| title (body : string)
| markdown (body : string)
| header (body : string)
| subheader (body : string)
| file_uploader (label : string) (type : list string)
| expander (label : string) (expanded : bool)
| text_area (label value : string) (height : Z)
| button (label type : string)
| spinner (text : string)
| columns (n : nat)
| success (body : string)
| info (body : json)
| error (body : string).

(** One request to the chat-completion endpoint. *)
Record chat_request : Type := ChatRequest {
  api_key : string;
  model : string;
  messages : list (string * string);   (* role, content *)
  response_format : string
}.

(** What the endpoint answers: [response.choices[i].message.content]. *)
Record choice : Type := Choice { message_content : option string }.
Record chat_response : Type := ChatResponse { choices : list choice }.

(** A paragraph of a document, as far as the program looks at it. *)
Record paragraph : Type := Paragraph { text : string }.

Record world : Type := World {
  fs : gmap string (list Byte.byte);   (* the files, by path *)
  ui : list (container * element);     (* the Streamlit calls so far *)
  sent : list chat_request;            (* the requests issued so far *)
  clients : list string;               (* [OpenAI(api_key=k)] constructed *)
  stdout : list string                 (* the lines printed *)
}.

Definition set_fs (f : gmap string (list Byte.byte)) (w : world) : world :=
  World f (ui w) (sent w) (clients w) (stdout w).
Definition add_ui (x : container * element) (w : world) : world :=
  World (fs w) (ui w ++ [x]) (sent w) (clients w) (stdout w).
Definition add_sent (r : chat_request) (w : world) : world :=
  World (fs w) (ui w) (sent w ++ [r]) (clients w) (stdout w).
Definition add_client (k : string) (w : world) : world :=
  World (fs w) (ui w) (sent w) (clients w ++ [k]) (stdout w).
Definition add_stdout (l : string) (w : world) : world :=
  World (fs w) (ui w) (sent w) (clients w) (stdout w ++ [l]).

(** ** What the libraries do *)
Record Externals : Type := {
  (** python-docx: the paragraphs of the document with these bytes, or
      the exception [Document] raises on them *)
  docx_paragraphs : list Byte.byte -> result (list paragraph);
  (** tiktoken: the tokens of a text under the encoding of a model, or
      the exception raised ([encode] refuses a text that holds a special
      token such as [<|endoftext|>] with a [ValueError]) *)
  tiktoken_encode : string -> string -> result (list Z);
  (** the endpoint: the answer to a request, or the exception raised *)
  chat_completions_create : chat_request -> result chat_response;
  (** [json.loads] on a [str] *)
  json_loads : string -> result json;
  (** [repr] of a [str] *)
  repr_str : string -> string
}.

(** ** What the user and the operating system supply to one run *)
Record Session : Type := {
  environ : gmap string string;          (* [os.environ] *)
  cwd : string;                          (* [os.getcwd()] *)
  uploaded_file : option (list Byte.byte);
                                         (* what [st.file_uploader] returns *)
  button_clicked : bool                  (* what [st.button] returns *)
}.

(** ** Computations: state and exceptions

    A computation runs from a world to a result and the world it leaves;
    what was done before an exception stays done. *)
Definition M (A : Type) : Type := world -> result A * world.

Definition ret {A} (a : A) : M A := fun w => (Ok a, w).

Definition raise {A} (e : exn) : M A := fun w => (Raise e, w).

Definition bind {A B} (m : M A) (k : A -> M B) : M B :=
  fun w =>
    match m w with
    | (Ok a, w') => k a w'
    | (Raise e, w') => (Raise e, w')
    end.

(** A pure library call that returns or raises. *)
Definition lift {A} (r : result A) : M A := fun w => (r, w).

(** [try: body / except Exception as e: handler(e)] *)
Definition try_except {A} (body : M A) (handler : exn -> M A) : M A :=
  fun w =>
    match body w with
    | (Ok a, w') => (Ok a, w')
    | (Raise e, w') =>
        if is_Exception e then handler e w' else (Raise e, w')
    end.

(** [try: body / finally: final].  [final] runs on every way out of
    [body]; an exception of [final] replaces the outcome of [body]. *)
Definition try_finally {A} (body : M A) (final : M unit) : M A :=
  fun w =>
    match body w with
    | (r, w') =>
        match final w' with
        | (Ok _, w'') => (r, w'')
        | (Raise e, w'') => (Raise e, w'')
        end
    end.

(** [for x in l: body(x)] *)
Fixpoint for_each {A} (l : list A) (body : A -> M unit) : M unit :=
  match l with
  | [] => ret tt
  | x :: rest => bind (body x) (fun _ => for_each rest body)
  end.

Declare Scope py_scope.
Delimit Scope py_scope with py.
Notation "x <- c1 ;; c2" := (bind c1 (fun x => c2))
  (at level 100, c1 at next level, right associativity) : py_scope.
Notation "c1 ;; c2" := (bind c1 (fun _ => c2))
  (at level 100, right associativity) : py_scope.

(** ** The runtime and library calls the program makes *)

(** A Streamlit call in a container. *)
Definition st (c : container) (e : element) : M unit :=
  fun w => (Ok tt, add_ui (c, e) w).

(** [st.stop()] *)
Definition st_stop {A} : M A := raise StopException.

(** [with open(path, "wb") as f: f.write(data)]: the file at [path] is
    created or truncated, and then holds [data]. *)
Definition write_file (path : string) (data : list Byte.byte) : M unit :=
  fun w => (Ok tt, set_fs (<[path := data]> (fs w)) w).

(** [os.path.exists(path)]; [None] is not a path. *)
Definition os_path_exists (path : option string) : M bool :=
  fun w =>
    match path with
    | Some p => (Ok (bool_decide (is_Some (fs w !! p))), w)
    | None =>
        (Raise (TypeError
           "stat: path should be string, bytes, os.PathLike or integer, not NoneType"), w)
    end.

(** [os.remove(path)] *)
Definition os_remove (path : option string) : M unit :=
  fun w =>
    match path with
    | Some p =>
        match fs w !! p with
        | Some _ => (Ok tt, set_fs (delete p (fs w)) w)
        | None =>
            (Raise (LibraryError true
               ("[Errno 2] No such file or directory: " +:+ "'" +:+ p +:+ "'")), w)
        end
    | None =>
        (Raise (TypeError
           "remove: path should be string, bytes or os.PathLike, not NoneType"), w)
    end.

(** [os.path.join(a, b)] (POSIX) *)
Definition os_path_join (a b : string) : string :=
  if startswith b "/" then b
  else if negb (str_truthy a) || ends_with_char "/"%char a then a +:+ b
  else a +:+ "/" +:+ b.

(** [print(l)]: one line on the standard output *)
Definition py_print (l : string) : M unit :=
  fun w => (Ok tt, add_stdout l w).

Section Text.

Variable E : Externals.

(** [str(e)] of an exception: a [KeyError] shows the [repr] of its key,
    the others their message. *)
Definition exn_str (e : exn) : string :=
  match e with
  | KeyError k => repr_str E k
  | TypeError m | IndexError m | LibraryError _ m => m
  | StopException => ""
  end.

(** [repr(v)], which is also [str(v)] for everything but a [str]. *)
Fixpoint repr (v : json) : string :=
  match v with
  | JNull => "None"
  | JBool true => "True"
  | JBool false => "False"
  | JInt n => pretty n
  | JFloat r => r
  | JStr s => repr_str E s
  | JList items => "[" +:+ str_join ", " (map repr items) +:+ "]"
  | JDict items =>
      "{" +:+ str_join ", "
                (map (fun kv => repr_str E (fst kv) +:+ ": " +:+ repr (snd kv)) items)
          +:+ "}"
  end.

(** [f"{v}"]: a [str] as it is, anything else through [str]. *)
Definition format (v : json) : string :=
  match v with
  | JStr s => s
  | _ => repr v
  end.

End Text.

End Env.
Import Env.

(* ===================================================================== *)
(** * resolution_reviewer.py                                              *)
(* ===================================================================== *)

Module Reviewer.

(** [_get_system_prompt]: the rule template, a constant.  Each element
    is one line of the literal; the last, empty one is the newline that
    ends it. *)
Definition _get_system_prompt : string :=
  str_join nl [
    "You are an expert reviewer of CUNY Board of Trustees resolutions. Your task is to analyze resolutions for compliance with the template and rules below.";
    "";
    "For each violation found, you must:";
    "1. Identify the specific rule or template requirement that was violated";
    "2. Explain the error clearly";
    "3. Provide the exact line where the error occurs. If a WHEREAS clause doesn't address a specific point that it is supposed to, then provide the number of that clause.";
    "4. Suggest how to fix it";
    "";
    "TEMPLATE STRUCTURE:";
    "1. The resolution must follow this exact structure:";
    "   - First line: " +:+ dq +:+ "Board of Trustees of The City University of New York" +:+ dq;
    "   - Next line: " +:+ dq +:+ "RESOLUTION TO" +:+ dq;
    "   - Next line: " +:+ dq +:+ "Establish a [Degree Level Program] in [Subject] at [College Name]" +:+ dq;
    "   - Next line: [Date of Board of Trustees' committee meeting]. Date must be in format " +:+ dq +:+ "Month DD, YYYY" +:+ dq;
    "   - WHEREAS clauses";
    "   - 'NOW THEREFORE BE IT'";
    "   - RESOLVED clause";
    "   - EXPLANATION part";
    "";
    "2. WHEREAS Clauses Requirements:";
    "   - Each WHEREAS clause, must address specific points, individually and in order:";
    "     1. Why the CUNY and market needs this program";
    "     2. How the program curriculum and credits are designed to meet the needs of the CUNY and market";
    "     3. Current student interest in the program";
    "     4. Transferability of the program courses";
    "     5. Benefits to students served and benefits to the CUNY and market";
    "     6. Projected enrollment, retention, and graduation in the first 3 to 5 years";
    "     7. Financial sustainability of the program given demand, section size, and current staffing, and projected revenue through enrollment to cover all operating costs in the first year";
    "     8. Program investments during the initial growth period; include any space/equipment needs, renovations, staff and faculty hiring (list number of Part and Full Time Faculty), as indicated, and identify the sources of funds for each.";
    "   - If a clause doesn't address a specific point that it is supposed to in a clear manner, then it is a violation and you must provide the number of that clause, and the specific point it doesn't address, along with the suggested fix.";
    "   - All the specific points must be addressed in a clear and concise manner. If not, then it is a violation and you must provide the point that is missing, and suggest/write a WHEREAS clause that addresses it.";
    "   - Each clause must end with " +:+ dq +:+ "; and" +:+ dq +:+ " except the last one which ends with a period";
    "   - Each clause must be a single statement without any full-stops. Internal periods, like commas, are allowed.";
    "";
    "3. RESOLVED Clause Requirements:";
    "   - The RESOLVED clause must state the aim of the resolution succinctly";
    "   - The RESOLVED clause must be a single statement with only 1 full-stop. Internal periods, like commas, are allowed.";
    "";
    "4. EXPLANATION Requirements:";
    "   - The EXPLANATION part must briefly summarize the purpose and benefits of the resolution.";
    "";
    "5. Resolution Structure Rules:";
    "   - Must include " +:+ dq +:+ "NOW, THEREFORE, BE IT" +:+ dq +:+ " after the last WHEREAS clause";
    "   - Must have exactly one RESOLVED clause";
    "   - Must include EXPLANATION section after RESOLVED clause";
    "";
    "FORMATTING RULES:";
    "1. Clause Formatting:";
    "   - WHEREAS clauses must start with " +:+ dq +:+ "WHEREAS," +:+ dq;
    "   - Only one full-stop allowed across all WHEREAS clause (except the last WHEREAS clause)";
    "   - " +:+ dq +:+ "; and" +:+ dq +:+ " required at end of all WHEREAS clauses except the last";
    "   - RESOLVED clause must start with " +:+ dq +:+ "RESOLVED," +:+ dq;
    "   - RESOLVED clause must come after " +:+ dq +:+ "NOW, THEREFORE, BE IT" +:+ dq;
    "   - EXPLANATION part must start with " +:+ dq +:+ "EXPLANATION:" +:+ dq;
    "   - EXPLANATION must come after RESOLVED clause";
    "";
    "Provide your analysis in the following JSON format:";
    "{";
    "    " +:+ dq +:+ "template_violations" +:+ dq +:+ ": [";
    "        {";
    "            " +:+ dq +:+ "rule" +:+ dq +:+ ": " +:+ dq +:+ "string - the specific rule violated" +:+ dq +:+ ",";
    "            " +:+ dq +:+ "location" +:+ dq +:+ ": " +:+ dq +:+ "string - where in the document" +:+ dq +:+ " OR " +:+ dq +:+ "#clause that violates a rule - the number of the clause violated - the specific point it doesn't address" +:+ dq +:+ ",";
    "            " +:+ dq +:+ "description" +:+ dq +:+ ": " +:+ dq +:+ "string - clear explanation of the violation" +:+ dq +:+ ",";
    "            " +:+ dq +:+ "suggestion" +:+ dq +:+ ": " +:+ dq +:+ "string - how to fix it" +:+ dq;
    "        }";
    "    ],";
    "    " +:+ dq +:+ "formatting_violations" +:+ dq +:+ ": [";
    "        {";
    "            " +:+ dq +:+ "rule" +:+ dq +:+ ": " +:+ dq +:+ "string - the specific rule violated" +:+ dq +:+ ",";
    "            " +:+ dq +:+ "location" +:+ dq +:+ ": " +:+ dq +:+ "string - where in the document" +:+ dq +:+ ",";
    "            " +:+ dq +:+ "description" +:+ dq +:+ ": " +:+ dq +:+ "string - clear explanation of the violation" +:+ dq +:+ ",";
    "            " +:+ dq +:+ "suggestion" +:+ dq +:+ ": " +:+ dq +:+ "string - how to fix it" +:+ dq;
    "        }";
    "    ],";
    "    " +:+ dq +:+ "overall_assessment" +:+ dq +:+ ": " +:+ dq +:+ "string - brief summary of the resolution's compliance" +:+ dq;
    "}";
    ""
  ].

(** The worked example of [_get_examples]: the draft as submitted, *)
Definition ex_original : string :=
  str_join nl [
    "";
    "        Board of Trustees of the City University of New York";
    "";
    "        RESOLUTION TO";
    "";
    "        Establish a Bachelor of Arts in Data Analytics at Brooklyn College";
    "";
    "        February 28, 2025";
    "";
    "        WHEREAS, Knowledge of data practices, ranging from programming to statistics to data story-telling and visualization, is in high demand in the contemporary labor market, according to the US Department of Labor, with expected growth in New York State between 10% and 43% over the next ten years; and";
    "";
    "        WHEREAS, The typical approach to undergraduate programs in the field (including data analytics in various forms as well as data science) has tended to stress technical skills. Much less attention has been paid in undergraduate programs to a broad perspective—data practices in society, or the " +:+ dq +:+ "data landscape" +:+ dq +:+ "—and the integration of data skills and training in contexts, organizations, and communities; and";
    "";
    "        WHEREAS, Brooklyn College is proposing the establishment of a Bachelor of Arts (" +:+ dq +:+ "BA" +:+ dq +:+ ") program in Data Analytics, organized around the idea of data acumen, or the ability to make creative, sound judgments and decisions with data. This approach requires a solid foundation in data skills, such as programming in Python, statistics and probability, and data visualization. But it goes beyond this foundation by bringing to bear deep knowledge of communication and contexts from the social and behavioral sciences, and;";
    "";
    "        WHEREAS, The proposed 58- to 72.5-credit Bachelor of Arts program tracks to capture a diverse population of students across the behavioral, natural, and social sciences. The first track is for social and behavioral science or humanities students who are interested in careers in data analytics. Students in this track take statistics and data analysis courses in the department of Management, Marketing, and Entrepreneurship, Economics, Psychology, or Sociology. The second track is intended for STEM students who are interested in more mathematics-oriented careers in data science; and";
    "";
    "        WHEREAS, The proposed Bachelor of Arts program will be housed in the School of Natural and Behavioral Sciences with participation of the Departments of Computer and Informational Science, Mathematics, Economics, Management, Marketing and Entrepreneurship, Psychology, Sociology, and Communication Arts, Sciences and Disorders; and";
    "";
    "        WHEREAS, Students completing the program will acquire the knowledge and skills necessary for career advancement in areas of data management, data analytics, data visualization, and data communications in a variety of employment settings; and";
    "";
    "        WHEREAS, The proposed Bachelor of Arts program has an articulation agreement with the Associate of Science program in data science at Borough of Manhattan Community College. Further, possible connections with other University programs at the undergraduate and graduate levels, as well as programs of the City of New York to promote data careers, ensures a reliable pipeline of students into the professions; and";
    "";
    "        WHEREAS, The predicted enrollment and retention of students in the BA in Data Analytics, based on existing student interest as well as substantial and expanding market demand for graduates with this qualification, is expected to generate robust growth. The program will increase revenue while containing costs through the use of existing faculty, curriculum, and college resources; and";
    "";
    "        NOW, THEREFORE, BE IT";
    "";
    "        RESOLVED, That the Board of Trustees of the City University of New York";
    "        authorizes the proposed program in Data Analytics leading to the Bachelor of Arts degree at Brooklyn College be presented to the New York State Education Department for their consideration and registration in accordance with any and all regulations of the New York State Department of Education (" +:+ dq +:+ "NYSED" +:+ dq +:+ ") for their consideration and registration in accordance with any and all of NYSED's regulations, subject to financial ability. ";
    "";
    "        EXPLANATION: The proposed program will build upon a strong foundation in data analysis and quantitative methods, drawing on existing faculty expertise across three schools at Brooklyn College. It will serve The City University of New York's mission to prepare its diverse population of students for the future of work in data careers. It will allow students to develop the necessary skills for academic and professional advancement in this fast-growing area while ensuring equity and access to this vital professional field.";
    "        "
  ].

(** its corrected version, *)
Definition ex_modified : string :=
  str_join nl [
    "";
    "        Board of Trustees of the City University of New York";
    "";
    "        RESOLUTION TO";
    "";
    "        Establish a Bachelor of Arts in Data Analytics at Brooklyn College";
    "";
    "        February 28, 2025";
    "";
    "        WHEREAS, In the contemporary labor market, knowledge of data practices, everything from programming to statistics to data story-telling and visualization, is in high demand, according to the US Department of Labor, with expected growth in New York State between 10% and 43% over the next ten years; and";
    "";
    "        WHEREAS, The typical approach to undergraduate programs in the field (including data analytics in various forms as well as data science) has tended to stress technical skills with less attention focusing on designing undergraduate programs that take a broad perspective—data practices in society, or the " +:+ dq +:+ "data landscape" +:+ dq +:+ "—and the integration of data skills and training in contexts, organizations, and communities; and";
    "";
    "        WHEREAS, Brooklyn College is proposing the establishment of a Bachelor of Arts (" +:+ dq +:+ "BA" +:+ dq +:+ ") program in Data Analytics, organized around the idea of data acumen, or the ability to make creative, sound judgments and decisions with data taking an approach requires a solid foundation in data skills, such as programming in Python, statistics and probability, and data visualization but also goes beyond this foundation by bringing to bear deep knowledge of communication and contexts from the social and behavioral sciences, and;";
    "";
    "        WHEREAS, The proposed 58- to 72.5-credit Bachelor of Arts program provides students with the capability to acquire knowledge and skills necessary for career development in areas of data management, data analytics, data visualization, and data communications in a variety of employment settings make possible though the inclusion of two tracks capturing a diverse population of students with the first track targeting social and behavioral science or humanities students who are interested in careers in data analytics with them completing courses in statistics and data analysis and the second track targeting STEM students who are interested in more mathematics-oriented careers in data science; and";
    "";
    "        WHEREAS, The proposed Bachelor of Arts program is interdisciplinary being housed in the School of Natural and Behavioral Sciences and in partnership with the Departments of Computer and Informational Science, Mathematics, Economics, Management, Marketing and Entrepreneurship, Psychology, Sociology, and Communication Arts, Sciences and Disorders; and";
    "";
    "        WHEREAS, The proposed Bachelor of Arts program has an articulation agreement with the Associate of Science program in data science at Borough of Manhattan Community College with possible connections with other University programs at the undergraduate and graduate levels, as well as programs of the City of New York to promote data careers, ensuring a reliable pipeline of students into the professions; and";
    "";
    "        WHEREAS, The predicted enrollment and retention of students in the Bachelor of Arts in Data Analytics, based on existing student interest as well as substantial and expanding market demand for graduates with this qualification, is expected to generate robust growth and the program will increase revenue while containing costs through the use of existing faculty, curricula, and college resources.";
    "";
    "        NOW, THEREFORE, BE IT";
    "";
    "        RESOLVED, That the Board of Trustees of the City University of New York";
    "        authorizes the proposed program in Data Analytics leading to the Bachelor of Arts degree at Brooklyn College be presented to the New York State Education Department for their consideration and registration in accordance with any and all regulations of the New York State Department of Education (" +:+ dq +:+ "NYSED" +:+ dq +:+ ") for their consideration and registration in accordance with any and all of NYSED's regulations, subject to financial ability. ";
    "";
    "        EXPLANATION: The proposed program will build upon a strong foundation in data analysis and quantitative methods, drawing on existing faculty expertise across three schools at Brooklyn College. It will serve The City University of New York's mission to prepare its diverse population of students for the future of work in data careers as well as help fill the growing market demand for professionals with the skills and background in diverse data practices. It will allow students to develop the necessary skills for academic and professional advancement in this fast-growing area while ensuring equity and access to this vital professional field by targeting students across a range of disciplinary backgrounds from humanities to social sciences to STEM.";
    "        "
  ].

(** and the account of what was changed and why. *)
Definition changes : string :=
  str_join nl [
    "";
    "";
    "        In the first 'WHEREAS' clause, the positiong of the phrase 'In the contemporary labor market,' is changed, inserting it first instead of writing it last, removing 'K'. 'everything' is replaced with 'ranging'.";
    "";
    "        In the second 'WHEREAS' clause, there is a period (full-stop), violating a rule. So 'Much' has been replaced by 'with'. 'has been paid' has been replaced with 'focusing on designing'. 'to a' has been replaced with 'that take a'.";
    "";
    "        In the third 'WHEREAS' clause, there are periods (full-stop), that violates a rule. So 'with data. This' is replaced with 'with data taking an'. 'that' is added for proper sentence structuing. 'data visualization. But it' is replaced with 'data visualization but also'.";
    "";
    "        In the fourth 'WHEREAS' clause, there are periods (full-stop), that violates a rule. The paragraph is also formatted properly. The text 'provides students with the capability to acquire knowledge and skills necessary for career development in areas of data management, data analytics, data visualization, and data communications in a variety of employment settings make possible though the inclusion of' is the sixth 'WHEREAS' claues in the original, but is inserted at the beginning of this clause. Multiple grammatical and syntactic changes are also made.";
    "";
    "        In the fifth 'WHEREAS' clause, certain formatting is done, both grammatical and syntactic.";
    "";
    "        The sixth 'WHEREAS' clause is completely removed, and inserted in the beginning of the fourth 'WHEREAS' clause.";
    "";
    "        The seventh 'WHEREAS' clause has a period (full-stop) that is dealt with accordingly, keeping the rest of the content same.";
    "";
    "        The eight 'WHEREAS' clause has a period (full-stop) and it ends with '; and' which are violations. Minor grammatical changes are done. Also, the full-form of 'BA' instead of the abbreviation is also done, indicating professionalism of the resolution.";
    "";
    "        The 'NOW, THEREFORE, BE IT' is correct.";
    "";
    "        The 'RESOLVED,' clause is also correct.";
    "";
    "        In the 'EXPLANATION' part, two sentences are added at the end, which are 'as well as help fill the growing market demand for professionals with the skills and background in diverse data practices' and ' by targeting students across a range of disciplinary backgrounds from humanities to social sciences to STEM'.";
    "        ";
    "        SUMMARY:- Overall there are multiple modifications needed in the original version, including grammatical and syntactic changes. Certain rules are violated, which are handled accordingly. In general, the original resolution broadly talks in accordance with the template rules and address the points in order.";
    "        "
  ].

Definition _get_examples : string * string * string :=
  (ex_original, ex_modified, changes).

(** [_build_user_prompt]: the f-string, line by line; a [{name}] of the
    source is the argument [name] appended in its place. *)
Definition _build_user_prompt
    (ex_original ex_modified changes resolution_text : string) : string :=
  str_join nl [
    "";
    "        Your task is to analyze a draft resolution for compliance with the template and rules. ";
    "        An example of a draft resolution is given below, and the suggested corrections. ";
    "        The incorrect resolution is given below, followed by the updated version of that resolution. ";
    "        The changes that were made and the rules violated are given after the updated version.";
    "        <EXAMPLE START>";
    "        ORIGINAL VERSION:-";
    "        " +:+ ex_original;
    "        ----------------";
    "        MODIFIED VERSION:-";
    "        " +:+ ex_modified;
    "        ----------------";
    "        ORIGINAL VERSION:-";
    "        " +:+ changes;
    "        ----------------";
    "        <EXAMPLE END>";
    "        ";
    "        Based on the template provided, alonside the rules that may or may not be violated, please analyze the following resolution for compliance with the template and rules:";
    "        " +:+ resolution_text;
    "";
    "        Provide a detailed analysis identifying any violations of the template or rules."
  ].

Section WithExternals.

Variable E : Externals.

(** [count_tokens(text)]: the number of tokens of [text] under the
    encoding of ["gpt-4"], or the exception of the tokenizer. *)
Definition count_tokens (text : string) : result Z :=
  let encoding := tiktoken_encode E "gpt-4" in
  match encoding text with
  | Ok tokens => Ok (Z.of_nat (length tokens))
  | Raise e => Raise e
  end.

(** An instance: the client (known by the key it was built with) and the
    system prompt. *)
Record ResolutionReviewer : Type := {
  client : string;
  system_prompt : string
}.

(** [ResolutionReviewer(api_key)] *)
Definition __init__ (api_key : string) : M ResolutionReviewer :=
  fun w =>
    (Ok {| client := api_key; system_prompt := _get_system_prompt |},
     add_client api_key w).

(** [Document(file_path).paragraphs]: python-docx opens the file and
    parses it, or raises. *)
Definition Document (file_path : string) : M (list paragraph) :=
  fun w =>
    match fs w !! file_path with
    | Some data => (docx_paragraphs E data, w)
    | None =>
        (Raise (LibraryError true
           ("Package not found at '" +:+ file_path +:+ "'")), w)
    end.

Definition read_document (self : ResolutionReviewer) (file_path : string)
  : M string :=
  (paragraphs <- Document file_path ;;
   ret (str_join nl (map text paragraphs)))%py.

(** [self.client.chat.completions.create(...)]: the request goes out,
    and the endpoint answers or the call raises. *)
Definition create (req : chat_request) : M chat_response :=
  fun w => (chat_completions_create E req, add_sent req w).

(** [response.choices[0].message.content] *)
Definition first_content (response : chat_response) : M (option string) :=
  match choices response with
  | c :: _ => ret (message_content c)
  | [] => raise (IndexError "list index out of range")
  end.

(** [repr] of a [str] or [None] *)
Definition repr_content (content : option string) : string :=
  match content with
  | Some s => repr_str E s
  | None => "None"
  end.

(** [json.loads(content)] *)
Definition loads (content : option string) : M json :=
  match content with
  | Some s => lift (json_loads E s)
  | None =>
      raise (TypeError
        "the JSON object must be str, bytes or bytearray, not NoneType")
  end.

Definition review_resolution (self : ResolutionReviewer) (file_path : string)
  : M json :=
  (resolution_text <- read_document self file_path ;;
   let '(ex_original, ex_modified, changes) := _get_examples in
   let user_prompt :=
     _build_user_prompt ex_original ex_modified changes resolution_text in
   system_tokens <- lift (count_tokens (system_prompt self)) ;;
   user_tokens <- lift (count_tokens user_prompt) ;;
   let total_tokens := (system_tokens + user_tokens)%Z in
   response <- create {|
       api_key := client self;
       model := "gpt-4.1-mini-2025-04-14";
       messages := [("system", system_prompt self); ("user", user_prompt)];
       response_format := "json_object"
     |} ;;
   content <- first_content response ;;
   py_print ("DEBUG: response.choices[0].message.content = "
             +:+ repr_content content) ;;
   content' <- first_content response ;;
   loads content')%py.

End WithExternals.

End Reviewer.
Import Reviewer.

(* ===================================================================== *)
(** * app.py                                                              *)
(* ===================================================================== *)

Module App.

Section WithSession.

Variable E : Externals.
Variable S : Session.

(** [st.file_uploader(label, type=...)]: draws the control and returns
    the file the user has uploaded, if any (its bytes, [getvalue()]). *)
Definition st_file_uploader (c : container) (label : string)
    (type : list string) : M (option (list Byte.byte)) :=
  fun w => (Ok (uploaded_file S), add_ui (c, file_uploader label type) w).

(** [st.button(label, type=...)]: draws the button and tells whether it
    was clicked. *)
Definition st_button (c : container) (label type : string) : M bool :=
  fun w => (Ok (button_clicked S), add_ui (c, button label type) w).

(** [os.getenv(name)] *)
Definition os_getenv (name : string) : option string := environ S !! name.

(** Returns [(file_to_review, file_source, temp_file_path)]. *)
Definition select_or_upload_file (res_dir : string)
  : M (option string * option string * option string) :=
  (st Page (subheader "Upload a Resolution Document") ;;
   uploaded_file <- st_file_uploader Page "Upload a .docx file:" ["docx"] ;;
   match uploaded_file with
   | Some data =>
       let temp_file_path := "temp_resolution.docx" in
       write_file temp_file_path data ;;
       let file_to_review := temp_file_path in
       let file_source := "uploaded" in
       ret (Some file_to_review, Some file_source, Some temp_file_path)
   | None => ret (None, None, None)
   end)%py.

Definition show_document_preview (reviewer : ResolutionReviewer)
    (file_to_review : string) : M unit :=
  (let label := "Preview Extracted Text from Document" in
   st Page (expander label false) ;;
   try_except
     (extracted_text <- read_document E reviewer file_to_review ;;
      st (Expander Page label) (text_area "Extracted Text" extracted_text 300))
     (fun e =>
        st (Expander Page label)
           (error ("Could not extract text: " +:+ exn_str E e))))%py.

(** The body of [for violation in ...] (lines 38-41, and again 48-51):
    one expanded panel per violation, in the column [col]. *)
Definition violation_panel (col : container) (violation : json) : M unit :=
  (location <- lift (getitem violation "location") ;;
   let label := "Violation at " +:+ format E location in
   st col (expander label true) ;;
   rule <- lift (getitem violation "rule") ;;
   st (Expander col label) (markdown ("**Rule:** " +:+ format E rule)) ;;
   description <- lift (getitem violation "description") ;;
   st (Expander col label) (markdown ("**Issue:** " +:+ format E description)) ;;
   suggestion <- lift (getitem violation "suggestion") ;;
   st (Expander col label)
      (markdown ("**Suggestion:** " +:+ format E suggestion)))%py.

(** Lines 32-55: what is drawn from the result of the review. *)
Definition display_results (results : json) : M unit :=
  (st Page (header "Review Results") ;;
   st Page (columns 2) ;;
   let col1 := Column 1 in
   let col2 := Column 2 in
   st col1 (subheader "Template Violations") ;;
   template_violations <- lift (getitem results "template_violations") ;;
   (if truthy template_violations then
      again <- lift (getitem results "template_violations") ;;
      violations <- lift (iterate again) ;;
      for_each violations (violation_panel col1)
    else st col1 (success "No template violations found.")) ;;
   st col2 (subheader "Formatting Violations") ;;
   formatting_violations <- lift (getitem results "formatting_violations") ;;
   (if truthy formatting_violations then
      again <- lift (getitem results "formatting_violations") ;;
      violations <- lift (iterate again) ;;
      for_each violations (violation_panel col2)
    else st col2 (success "No formatting violations found.")) ;;
   st Page (subheader "Overall Assessment") ;;
   overall_assessment <- lift (getitem results "overall_assessment") ;;
   st Page (info overall_assessment))%py.

(** The [finally] block of the review action. *)
Definition cleanup (file_source temp_file_path : option string) : M unit :=
  (match file_source with
   | Some src =>
       if String.eqb src "uploaded" then
         present <- os_path_exists temp_file_path ;;
         if (present : bool) then os_remove temp_file_path else ret tt
       else ret tt
   | None => ret tt
   end)%py.

Definition analyze_and_display_results (reviewer : ResolutionReviewer)
    (file_to_review : string) (file_source temp_file_path : option string)
  : M unit :=
  (clicked <- st_button Page "Analyze Resolution" "primary" ;;
   if (clicked : bool) then
     try_finally
       (try_except
          (st Page (spinner "Analyzing resolution...") ;;
           results <- review_resolution E reviewer file_to_review ;;
           display_results results)
          (fun e => st Page (error ("An error occurred: " +:+ exn_str E e))))
       (cleanup file_source temp_file_path)
   else ret tt)%py.

Definition main : M unit :=
  (st Page (set_page_config "CUNY Resolution Reviewer" "📄" "wide") ;;
   st Page (title "CUNY Resolution Reviewer") ;;
   st Page (markdown
     (nl +:+ "This tool analyzes CUNY Board of Trustees resolutions for compliance with templates and rules."
         +:+ nl +:+ nl)) ;;
   (* [if not OPENAI_API_KEY]: [None] and the empty string are falsy *)
   OPENAI_API_KEY <-
     match os_getenv "OPENAI_API_KEY" with
     | Some k =>
         if str_truthy k then ret k
         else (st Page (error "Please set the OPENAI_API_KEY environment variable.") ;;
               st_stop)
     | None =>
         st Page (error "Please set the OPENAI_API_KEY environment variable.") ;;
         st_stop
     end ;;
   let res_dir := os_path_join (cwd S) "reinaccurateboardresolutions" in
   selected <- select_or_upload_file res_dir ;;
   let '(file_to_review, file_source, temp_file_path) := selected in
   match file_to_review with
   | Some path =>
       if str_truthy path then
         reviewer <- __init__ OPENAI_API_KEY ;;
         show_document_preview reviewer path ;;
         analyze_and_display_results reviewer path file_source temp_file_path
       else st Page (info (JStr "Please upload a .docx file to begin."))
   | None => st Page (info (JStr "Please upload a .docx file to begin."))
   end)%py.

(** Lines 76-83 of [main] on their own: what the script does once it
    has the key. *)
Definition upload_and_review (OPENAI_API_KEY : string) : M unit :=
  (let res_dir := os_path_join (cwd S) "reinaccurateboardresolutions" in
   selected <- select_or_upload_file res_dir ;;
   let '(file_to_review, file_source, temp_file_path) := selected in
   match file_to_review with
   | Some path =>
       if str_truthy path then
         reviewer <- __init__ OPENAI_API_KEY ;;
         show_document_preview reviewer path ;;
         analyze_and_display_results reviewer path file_source temp_file_path
       else st Page (info (JStr "Please upload a .docx file to begin."))
   | None => st Page (info (JStr "Please upload a .docx file to begin."))
   end)%py.

End WithSession.

End App.
Import App.

(* ===================================================================== *)
(** * The vocabulary of the specification                                 *)
(* ===================================================================== *)

Module Spec.

(** ** Prompts *)

(** The user prompt [review_resolution] builds for a document text. *)
Definition user_prompt_for (resolution_text : string) : string :=
  let '(ex_original, ex_modified, changes) := _get_examples in
  _build_user_prompt ex_original ex_modified changes resolution_text.

(** The fixed example block: from the start of the prompt to the line
    that closes the example. *)
Definition example_block : string :=
  str_join nl [
    "";
    "        Your task is to analyze a draft resolution for compliance with the template and rules. ";
    "        An example of a draft resolution is given below, and the suggested corrections. ";
    "        The incorrect resolution is given below, followed by the updated version of that resolution. ";
    "        The changes that were made and the rules violated are given after the updated version.";
    "        <EXAMPLE START>";
    "        ORIGINAL VERSION:-";
    "        " +:+ ex_original;
    "        ----------------";
    "        MODIFIED VERSION:-";
    "        " +:+ ex_modified;
    "        ----------------";
    "        ORIGINAL VERSION:-";
    "        " +:+ changes;
    "        ----------------";
    "        <EXAMPLE END>"
  ].

(** What stands between the example block and the document text, *)
Definition request_lines : string :=
  str_join nl [
    "";
    "        ";
    "        Based on the template provided, alonside the rules that may or may not be violated, please analyze the following resolution for compliance with the template and rules:";
    "        "
  ].

(** and what follows the document text. *)
Definition closing_lines : string :=
  str_join nl [
    "";
    "";
    "        Provide a detailed analysis identifying any violations of the template or rules."
  ].

(** ** Occurrences of a heading in a text *)

(** The number of positions of [s] at which [p] starts. *)
Fixpoint occurrences (p s : string) : nat :=
  match s with
  | EmptyString => 0
  | String _ s' => (if startswith s p then 1 else 0) + occurrences p s'
  end.

(** No end of [a] is the beginning of an occurrence of [p] that [a]
    leaves unfinished: every non-empty suffix of [a] either holds [p] in
    full or already differs from it. *)
Fixpoint no_partial_match (p a : string) : bool :=
  match a with
  | EmptyString => true
  | String _ a' => (startswith a p || negb (startswith p a)) && no_partial_match p a'
  end.

Definition original_heading : string := "ORIGINAL VERSION:-".
Definition modified_heading : string := "MODIFIED VERSION:-".
Definition changes_heading : string := "CHANGES".

(** The pieces of the example block around its three texts: the lines
    before the first heading, the indentation of a line, the rule
    between two sections, and the line that closes the example. *)
Definition opening_lines : string :=
  str_join nl [
    "";
    "        Your task is to analyze a draft resolution for compliance with the template and rules. ";
    "        An example of a draft resolution is given below, and the suggested corrections. ";
    "        The incorrect resolution is given below, followed by the updated version of that resolution. ";
    "        The changes that were made and the rules violated are given after the updated version.";
    "        <EXAMPLE START>";
    "        "
  ].
Definition indent : string := "        ".
Definition section_rule : string :=
  str_join nl [""; "        ----------------"; "        "].
Definition example_end : string := "<EXAMPLE END>".

(** ** Lines of a text *)

(** The texts, each followed by the next after one newline: the way the
    specification describes the extracted text. *)
Definition newline_separated (texts : list string) : string :=
  match texts with
  | [] => ""
  | t :: rest => fold_left (fun acc t' => acc +:+ nl +:+ t') rest t
  end.

(** [s.split("\n")], with the line being read in [cur]. *)
Fixpoint split_lines_from (cur : string) (s : string) : list string :=
  match s with
  | EmptyString => [cur]
  | String c s' =>
      if Ascii.eqb c (ascii_of_nat 10) then cur :: split_lines_from "" s'
      else split_lines_from (cur +:+ String c EmptyString) s'
  end.

Definition split_lines (s : string) : list string := split_lines_from "" s.

(** ** Review results *)

(** The three keys a review result must have. *)
Definition required_keys : list string :=
  ["template_violations"; "formatting_violations"; "overall_assessment"].

(** The parsed content of a response: the first choice has content, and
    the content is valid JSON with value [v]. *)
Definition parses_as (E : Externals) (response : chat_response) (v : json)
  : Prop :=
  exists c rest s,
    choices response = c :: rest /\ message_content c = Some s
    /\ json_loads E s = Ok v.

(** The request [review_resolution] sends for a document text. *)
Definition request_for (self : ResolutionReviewer) (resolution_text : string)
  : chat_request :=
  {| api_key := client self;
     model := "gpt-4.1-mini-2025-04-14";
     messages := [("system", system_prompt self);
                  ("user", user_prompt_for resolution_text)];
     response_format := "json_object" |}.

(** The same libraries with another tokenizer. *)
Definition with_tokenizer (enc : string -> string -> result (list Z))
    (E : Externals)
  : Externals :=
  {| docx_paragraphs := docx_paragraphs E;
     tiktoken_encode := enc;
     chat_completions_create := chat_completions_create E;
     json_loads := json_loads E;
     repr_str := repr_str E |}.

(** The two calls of [count_tokens] in [review_resolution], in order:
    the total, or the first exception. *)
Definition token_counts (E : Externals) (self : ResolutionReviewer)
    (resolution_text : string) : result Z :=
  match count_tokens E (system_prompt self) with
  | Ok system_tokens =>
      match count_tokens E (user_prompt_for resolution_text) with
      | Ok user_tokens => Ok (system_tokens + user_tokens)%Z
      | Raise e => Raise e
      end
  | Raise e => Raise e
  end.

(** The fixed path of the uploaded document. *)
Definition temp_path : string := "temp_resolution.docx".

(** The banner over the overall assessment is the only [st.info] of the
    review action. *)
Definition is_info (x : container * element) : bool :=
  match snd x with info _ => true | _ => false end.

(** Streamlit calls that show no assessment. *)
Definition quiet (shown : list (container * element)) : Prop :=
  Forall (fun x => is_info x = false) shown.

(** What the script draws before it looks for the key. *)
Definition page_top : list (container * element) :=
  [(Page, set_page_config "CUNY Resolution Reviewer" "📄" "wide");
   (Page, title "CUNY Resolution Reviewer");
   (Page, markdown
      (nl +:+ "This tool analyzes CUNY Board of Trustees resolutions for compliance with templates and rules."
          +:+ nl +:+ nl))].

(** The error shown when the key is missing. *)
Definition missing_key_error : container * element :=
  (Page, error "Please set the OPENAI_API_KEY environment variable.").

(** The upload control. *)
Definition upload_controls : list (container * element) :=
  [(Page, subheader "Upload a Resolution Document");
   (Page, file_uploader "Upload a .docx file:" ["docx"])].

(** What a review without violations shows. *)
Definition clean_review (assessment : json) : list (container * element) :=
  [(Page, header "Review Results");
   (Page, columns 2);
   (Column 1, subheader "Template Violations");
   (Column 1, success "No template violations found.");
   (Column 2, subheader "Formatting Violations");
   (Column 2, success "No formatting violations found.");
   (Page, subheader "Overall Assessment");
   (Page, info assessment)].

(** The world when the review action calls [review_resolution]: the
    button and the spinner are drawn. *)
Definition reviewing (w : world) : world :=
  add_ui (Page, spinner "Analyzing resolution...")
    (add_ui (Page, button "Analyze Resolution" "primary") w).

(** One world continues another: the page has grown, and no file but the
    one at [temp_path] differs. *)
Definition continues (w w' : world) : Prop :=
  (exists shown, ui w' = ui w ++ shown)
  /\ (forall q : string, q = temp_path \/ fs w' !! q = fs w !! q).

(** The page has grown by calls that show no assessment. *)
Definition draws_quietly (w w' : world) : Prop :=
  exists shown, ui w' = ui w ++ shown /\ quiet shown.

(** ** Properties of computations *)

(** Every run of [m] relates the world before to the world after by [R]. *)
Definition keeps (R : world -> world -> Prop) {A} (m : M A) : Prop :=
  forall w, R w (snd (m w)).

(** [except Exception] catches whatever [m] raises. *)
Definition catchable {A} (m : M A) : Prop :=
  forall w e, fst (m w) = Raise e -> is_Exception e = true.

(** [m] only draws, shows no assessment and raises nothing that
    [except Exception] would let through. *)
Definition tame {A} (m : M A) : Prop :=
  keeps draws_quietly m /\ catchable m.

(** [m] ends in an exception that [except Exception] catches, having
    drawn without showing an assessment. *)
Definition fails {A} (m : M A) : Prop :=
  forall w, exists shown e,
    ui (snd (m w)) = ui w ++ shown /\ quiet shown
    /\ fst (m w) = Raise e /\ is_Exception e = true.

(** ** Violations and what is drawn for them *)

(** A violation as the response contract has it: four strings. *)
Record Violation : Type := {
  rule_of : string;
  location_of : string;
  description_of : string;
  suggestion_of : string
}.

(** The value [j] is a mapping that holds the four fields of [v] as
    strings (in any order, possibly among other keys). *)
Definition encodes (j : json) (v : Violation) : Prop :=
  exists items,
    j = JDict items
    /\ dict_get items "location" = Some (JStr (location_of v))
    /\ dict_get items "rule" = Some (JStr (rule_of v))
    /\ dict_get items "description" = Some (JStr (description_of v))
    /\ dict_get items "suggestion" = Some (JStr (suggestion_of v)).

(** The expanded panel of one violation in a column. *)
Definition panel (col : container) (v : Violation)
  : list (container * element) :=
  let label := "Violation at " +:+ location_of v in
  [(col, expander label true);
   (Expander col label, markdown ("**Rule:** " +:+ rule_of v));
   (Expander col label, markdown ("**Issue:** " +:+ description_of v));
   (Expander col label, markdown ("**Suggestion:** " +:+ suggestion_of v))].

(** The panels of a list of violations, in order. *)
Definition panels (col : container) (vs : list Violation)
  : list (container * element) :=
  concat (map (panel col) vs).

(** What a column shows under its heading: the panels, or the
    indicator that there are none. *)
Definition column_body (col : container) (none_found : string)
    (vs : list Violation) : list (container * element) :=
  match vs with
  | [] => [(col, success none_found)]
  | _ :: _ => panels col vs
  end.

(** The page of a review with the given violations and assessment. *)
Definition review_page (template formatting : list Violation)
    (assessment : json) : list (container * element) :=
  [(Page, header "Review Results");
   (Page, columns 2);
   (Column 1, subheader "Template Violations")]
  ++ column_body (Column 1) "No template violations found." template
  ++ [(Column 2, subheader "Formatting Violations")]
  ++ column_body (Column 2) "No formatting violations found." formatting
  ++ [(Page, subheader "Overall Assessment");
      (Page, info assessment)].

(** ** Worlds *)

(** The world [w] with more drawn on the page. *)
Definition extend (w : world) (shown : list (container * element)) : world :=
  World (fs w) (ui w ++ shown) (sent w) (clients w) (stdout w).

(** The world [w] without the file at [p]. *)
Definition without_file (p : string) (w : world) : world :=
  set_fs (delete p (fs w)) w.

(** Nothing but the page differs, and the page has only grown. *)
Definition only_draws (w w' : world) : Prop :=
  exists shown, w' = extend w shown.

(** The label of the preview, and what the preview shows when the text
    cannot be extracted. *)
Definition preview_label : string := "Preview Extracted Text from Document".

Definition preview_error (E : Externals) (e : exn) : container * element :=
  (Expander Page preview_label,
   error ("Could not extract text: " +:+ exn_str E e)).

(** The error the review action shows for an exception. *)
Definition review_error (E : Externals) (e : exn) : container * element :=
  (Page, error ("An error occurred: " +:+ exn_str E e)).

(** The hint shown when nothing is uploaded. *)
Definition upload_hint : container * element :=
  (Page, info (JStr "Please upload a .docx file to begin.")).

(** The reviewer the script builds from the key. *)
Definition reviewer_of (k : string) : ResolutionReviewer :=
  {| client := k; system_prompt := _get_system_prompt |}.

(** The world when the preview starts: the page top and the upload
    control are drawn, the upload is written, the client is built. *)
Definition uploaded (k : string) (data : list Byte.byte) (w : world) : world :=
  World (<[temp_path := data]> (fs w))
    (ui w ++ page_top ++ upload_controls)
    (sent w) (clients w ++ [k]) (stdout w).

(** A request as the script sends it: under the key of the environment,
    to the fixed model, asking for a JSON object, with the system prompt
    and the user prompt of some document text. *)
Definition well_formed_request (S : Session) (r : chat_request) : Prop :=
  environ S !! "OPENAI_API_KEY" = Some (api_key r)
  /\ model r = "gpt-4.1-mini-2025-04-14"
  /\ response_format r = "json_object"
  /\ exists T, messages r = [("system", _get_system_prompt);
                             ("user", user_prompt_for T)].

(** The files are the same in both worlds. *)
Definition same_files (w w' : world) : Prop := fs w' = fs w.

End Spec.
Import Spec.

(* ===================================================================== *)
(** * A sample run                                                        *)
(* ===================================================================== *)

(** Concrete libraries, a session and a world on which the definitions
    can be evaluated: a three-paragraph document, an endpoint that finds
    nothing to object to, and a user who uploads and clicks. *)
Module Sample.

Definition clean_content : string :=
  "{" +:+ dq +:+ "template_violations" +:+ dq +:+ ": [], "
      +:+ dq +:+ "formatting_violations" +:+ dq +:+ ": [], "
      +:+ dq +:+ "overall_assessment" +:+ dq +:+ ": "
      +:+ dq +:+ "The resolution follows the template." +:+ dq +:+ "}".

Definition clean_result : json :=
  JDict [("template_violations", JList []);
         ("formatting_violations", JList []);
         ("overall_assessment", JStr "The resolution follows the template.")].

(** An answer without its [overall_assessment]. *)
Definition partial_content : string :=
  "{" +:+ dq +:+ "template_violations" +:+ dq +:+ ": [], "
      +:+ dq +:+ "formatting_violations" +:+ dq +:+ ": []}".

Definition partial_result : json :=
  JDict [("template_violations", JList []);
         ("formatting_violations", JList [])].

Definition paragraphs : list paragraph :=
  [Paragraph "WHEREAS, test; and"; Paragraph ""; Paragraph "RESOLVED, Done."].

Definition loads_stub (s : string) : result json :=
  if String.eqb s clean_content then Ok clean_result
  else if String.eqb s partial_content then Ok partial_result
  else Raise (LibraryError true "Expecting value: line 1 column 1 (char 0)").

(** One token per byte: enough of a tokenizer to count with. *)
Definition bytes_as_tokens (model : string) (text : string)
  : result (list Z) :=
  Ok (map (fun c => Z.of_nat (nat_of_ascii c)) (list_ascii_of_string text)).

Definition answering (content : string) : Externals :=
  {| docx_paragraphs := fun _ => Ok paragraphs;
     tiktoken_encode := bytes_as_tokens;
     chat_completions_create := fun _ => Ok (ChatResponse [Choice (Some content)]);
     json_loads := loads_stub;
     repr_str := fun s => "'" +:+ s +:+ "'" |}.

(** The same libraries with an endpoint call that is interrupted: the
    exception is not an [Exception]. *)
Definition externals_interrupted : Externals :=
  {| docx_paragraphs := fun _ => Ok paragraphs;
     tiktoken_encode := bytes_as_tokens;
     chat_completions_create :=
       fun _ => Raise (LibraryError false "KeyboardInterrupt");
     json_loads := loads_stub;
     repr_str := fun s => "'" +:+ s +:+ "'" |}.

Definition externals : Externals := answering clean_content.
Definition externals_partial : Externals := answering partial_content.

Definition upload : list Byte.byte := [Byte.x50; Byte.x4b; Byte.x03; Byte.x04].

Definition session : Session :=
  {| environ := {["OPENAI_API_KEY" := "sk-sample"]};
     cwd := "/srv/res-bot";
     uploaded_file := Some upload;
     button_clicked := true |}.

(** The same user before the click. *)
Definition session_idle : Session :=
  {| environ := {["OPENAI_API_KEY" := "sk-sample"]};
     cwd := "/srv/res-bot";
     uploaded_file := Some upload;
     button_clicked := false |}.

(** A process started without the key. *)
Definition session_no_key : Session :=
  {| environ := ∅;
     cwd := "/srv/res-bot";
     uploaded_file := Some upload;
     button_clicked := true |}.

Definition reviewer : ResolutionReviewer :=
  {| client := "sk-sample"; system_prompt := _get_system_prompt |}.

Definition empty_world : world := World ∅ [] [] [] [].

(** The world in which the review action starts: the upload is on disk. *)
Definition uploaded_world : world :=
  World {["temp_resolution.docx" := upload]} [] [] [] [].

(** A file that python-docx rejects. *)
Definition externals_corrupt : Externals :=
  {| docx_paragraphs := fun _ => Raise (LibraryError true "File is not a zip file");
     tiktoken_encode := bytes_as_tokens;
     chat_completions_create := fun _ => Ok (ChatResponse [Choice (Some clean_content)]);
     json_loads := loads_stub;
     repr_str := fun s => "'" +:+ s +:+ "'" |}.

(** An endpoint that refuses the request. *)
Definition externals_rate_limited : Externals :=
  {| docx_paragraphs := fun _ => Ok paragraphs;
     tiktoken_encode := bytes_as_tokens;
     chat_completions_create :=
       fun _ => Raise (LibraryError true "Error code: 429");
     json_loads := loads_stub;
     repr_str := fun s => "'" +:+ s +:+ "'" |}.

(** A user who has not uploaded anything. *)
Definition session_no_upload : Session :=
  {| environ := {["OPENAI_API_KEY" := "sk-sample"]};
     cwd := "/srv/res-bot";
     uploaded_file := None;
     button_clicked := false |}.

(** A tokenizer that, like tiktoken's [encode], refuses a text that
    holds the special token. *)
Definition special_token : string := "<|endoftext|>".

Definition strict_tokens (model : string) (text : string)
  : result (list Z) :=
  if (0 <? occurrences special_token text)%nat then
    Raise (LibraryError true
      "Encountered text corresponding to disallowed special token '<|endoftext|>'.")
  else bytes_as_tokens model text.

(** A readable document that quotes the special token, the strict
    tokenizer, and an endpoint that would answer well. *)
Definition quoting_paragraphs : list paragraph :=
  [Paragraph "WHEREAS, the model stops at <|endoftext|>; and";
   Paragraph "RESOLVED, Done."].

Definition externals_quoting : Externals :=
  {| docx_paragraphs := fun _ => Ok quoting_paragraphs;
     tiktoken_encode := strict_tokens;
     chat_completions_create := fun _ => Ok (ChatResponse [Choice (Some clean_content)]);
     json_loads := loads_stub;
     repr_str := fun s => "'" +:+ s +:+ "'" |}.

(** A violation, and the mapping that holds it. *)
Definition missing_header : Violation :=
  {| rule_of := "First line";
     location_of := "line 1";
     description_of := "The header line is missing.";
     suggestion_of := "Add the header line." |}.

Definition missing_header_json : json :=
  JDict [("rule", JStr "First line");
         ("location", JStr "line 1");
         ("description", JStr "The header line is missing.");
         ("suggestion", JStr "Add the header line.")].

(** A result with one template violation and no formatting violation. *)
Definition result_with_violation : list (string * json) :=
  [("template_violations", JList [missing_header_json]);
   ("formatting_violations", JList []);
   ("overall_assessment", JStr "One violation.")].

(** A result whose second template violation has no location. *)
Definition result_with_bad_violation : list (string * json) :=
  [("template_violations",
    JList [missing_header_json; JDict [("rule", JStr "Date")]; missing_header_json]);
   ("formatting_violations", JList []);
   ("overall_assessment", JStr "Two violations.")].

(** A result that has [null] where the lists should be. *)
Definition result_with_nulls : list (string * json) :=
  [("template_violations", JNull);
   ("formatting_violations", JNull);
   ("overall_assessment", JStr "Nothing to report.")].

End Sample.

(* ===================================================================== *)
(** * Strings                                                             *)
(* ===================================================================== *)

Section StringFacts.

(** stdpp keeps [simpl] from unfolding [+:+]; these are its equations. *)
Lemma append_nil_l (b : string) : "" +:+ b = b.
Proof. reflexivity. Qed.

Lemma append_cons (c : ascii) (a b : string) :
  String c a +:+ b = String c (a +:+ b).
Proof. reflexivity. Qed.

Lemma append_nil_r (s : string) : s +:+ "" = s.
Proof.
  induction s as [|c s IH]; [reflexivity|].
  now rewrite append_cons, IH.
Qed.

Lemma append_assoc (a b c : string) : (a +:+ b) +:+ c = a +:+ (b +:+ c).
Proof.
  induction a as [|x a IH]; [reflexivity|].
  now rewrite !append_cons, IH.
Qed.

Lemma length_append (a b : string) :
  String.length (a +:+ b) = String.length a + String.length b.
Proof.
  induction a as [|x a IH]; [reflexivity|].
  rewrite append_cons. simpl. now rewrite IH.
Qed.

Lemma append_cancel_l (a x y : string) : a +:+ x = a +:+ y -> x = y.
Proof.
  induction a as [|c a IH]; intros H; [exact H|].
  rewrite !append_cons in H. injection H as H. now apply IH.
Qed.

Lemma append_cancel_r (b x y : string) : x +:+ b = y +:+ b -> x = y.
Proof.
  revert y. induction x as [|c x IH]; intros [|d y] H;
    rewrite ?append_cons, ?append_nil_l in H.
  - reflexivity.
  - exfalso. apply (f_equal String.length) in H. simpl in H.
    rewrite length_append in H. lia.
  - exfalso. apply (f_equal String.length) in H. simpl in H.
    rewrite length_append in H. lia.
  - injection H as -> H. f_equal. now apply IH.
Qed.

Lemma startswith_refl (s : string) : startswith s s = true.
Proof.
  induction s as [|c s IH]; simpl; [reflexivity|].
  now rewrite Ascii.eqb_refl.
Qed.

(** An occurrence that fits in [a] is still there when text follows. *)
Lemma startswith_app (a b p : string) :
  startswith a p = true -> startswith (a +:+ b) p = true.
Proof.
  revert a. induction p as [|x p IH]; intros [|y a]; simpl; try easy.
  intros H. apply andb_true_iff in H as [-> H].
  simpl. now apply IH.
Qed.

(** If [a] is not a beginning of [p], what follows [a] does not matter. *)
Lemma startswith_app_differs (a b p : string) :
  startswith p a = false -> startswith (a +:+ b) p = startswith a p.
Proof.
  revert p. induction a as [|y a IH]; intros [|x p];
    rewrite ?append_cons, ?append_nil_l; simpl; try easy.
  rewrite (Ascii.eqb_sym y x).
  destruct (Ascii.eqb x y); simpl; [apply IH | reflexivity].
Qed.

(** If the text that follows [a] starts with a character that [p] does
    not have, no occurrence of [p] runs from [a] into it. *)
Lemma startswith_app_fresh (a b p : string) (c : ascii) :
  has_char c p = false ->
  startswith (a +:+ String c b) p = startswith a p.
Proof.
  revert p. induction a as [|y a IH]; intros [|x p];
    rewrite ?append_cons, ?append_nil_l; simpl; try easy.
  - intros H. apply orb_false_iff in H as [H _]. now rewrite H.
  - intros H. apply orb_false_iff in H as [_ H].
    destruct (Ascii.eqb x y); simpl; [now apply IH | reflexivity].
Qed.

Lemma occurrences_cons (p : string) (y : ascii) (s : string) :
  occurrences p (String y s)
  = (if startswith (String y s) p then 1 else 0) + occurrences p s.
Proof. reflexivity. Qed.

Lemma occurrences_app_clean (p a b : string) :
  no_partial_match p a = true ->
  occurrences p (a +:+ b) = occurrences p a + occurrences p b.
Proof.
  induction a as [|y a IH]; [reflexivity|].
  intros H. cbn [no_partial_match] in H.
  apply andb_true_iff in H as [Hy Ha].
  rewrite append_cons. cbn [occurrences]. rewrite (IH Ha), <- append_cons.
  apply orb_true_iff in Hy as [Hy | Hy].
  - rewrite (startswith_app _ b _ Hy), Hy. lia.
  - apply negb_true_iff in Hy.
    rewrite (startswith_app_differs _ b _ Hy). lia.
Qed.

Lemma occurrences_app_fresh (p a b : string) (c : ascii) :
  has_char c p = false ->
  occurrences p (a +:+ String c b)
  = occurrences p a + occurrences p (String c b).
Proof.
  intros Hc. induction a as [|y a IH]; [reflexivity|].
  rewrite append_cons, (occurrences_cons p y (a +:+ String c b)),
    (occurrences_cons p y a), IH, <- append_cons.
  rewrite (startswith_app_fresh _ b _ c Hc). lia.
Qed.

(** The user prompt is the example block, the request, the document text
    and the closing lines, in this order. *)
Lemma user_prompt_for_split (T : string) :
  user_prompt_for T
  = example_block +:+ request_lines +:+ T +:+ closing_lines.
Proof. vm_compute. reflexivity. Qed.

End StringFacts.

(* ===================================================================== *)
(** * The prompts                                                         *)
(* ===================================================================== *)

Section Prompts.

(** C2.  The user prompt is the fixed example block, the fixed request,
    the document text as it is and the fixed closing lines, so the text
    sits after the example block and nothing else varies with it: equal
    texts give equal prompts (and different texts different ones).  The
    system prompt of every instance, whatever the key and whenever it is
    built, is the one constant string. *)
Theorem prompts_are_deterministic :
  (forall T : string,
     user_prompt_for T
     = example_block +:+ request_lines +:+ T +:+ closing_lines)
  /\ (forall T1 T2 : string,
        T1 = T2 <-> user_prompt_for T1 = user_prompt_for T2)
  /\ (forall (k : string) (w : world),
        exists self w',
          __init__ k w = (Ok self, w')
          /\ system_prompt self = _get_system_prompt
          /\ forall T, messages (request_for self T)
                       = [("system", _get_system_prompt);
                          ("user", user_prompt_for T)]).
Proof.
  split; [exact user_prompt_for_split | split].
  - intros T1 T2. split; [now intros -> |].
    rewrite !user_prompt_for_split. intros H.
    apply append_cancel_l, append_cancel_l in H.
    now apply append_cancel_r in H.
  - intros k w. eexists _, _. split; [reflexivity|].
    split; [reflexivity|]. intros T. reflexivity.
Qed.

(** The example texts hold neither heading, and a heading cannot start in
    the fixed text before the document and end inside it. *)
Lemma fixed_part_headings :
  occurrences original_heading (example_block +:+ request_lines) = 2
  /\ occurrences changes_heading (example_block +:+ request_lines) = 0
  /\ occurrences original_heading closing_lines = 0
  /\ occurrences changes_heading closing_lines = 0
  /\ no_partial_match original_heading (example_block +:+ request_lines) = true
  /\ no_partial_match changes_heading (example_block +:+ request_lines) = true.
Proof. vm_compute. repeat split. Qed.

Lemma occurrences_in_prompt (p T : string) :
  no_partial_match p (example_block +:+ request_lines) = true ->
  has_char (ascii_of_nat 10) p = false ->
  occurrences p (user_prompt_for T)
  = occurrences p (example_block +:+ request_lines)
    + occurrences p T + occurrences p closing_lines.
Proof.
  intros Hclean Hnl. rewrite user_prompt_for_split, <- append_assoc.
  rewrite (occurrences_app_clean _ _ _ Hclean).
  change closing_lines
    with (String (ascii_of_nat 10)
            (nl +:+ "        Provide a detailed analysis identifying any violations of the template or rules.")).
  rewrite (occurrences_app_fresh _ _ _ _ Hnl). lia.
Qed.

(** C10, as the code has it.  The heading "ORIGINAL VERSION:-" stands
    twice in the fixed part of every user prompt, before the original
    text of the example and again before its account of the changes, with
    the "MODIFIED VERSION:-" section between the two, and the fixed part
    has no "CHANGES" heading; any further occurrence of either comes from
    the document text itself. *)
Theorem original_heading_twice_in_fixed_part (T : string) :
  user_prompt_for T
  = opening_lines
      +:+ original_heading +:+ nl +:+ indent +:+ ex_original +:+ section_rule
      +:+ modified_heading +:+ nl +:+ indent +:+ ex_modified +:+ section_rule
      +:+ original_heading +:+ nl +:+ indent +:+ changes +:+ section_rule
      +:+ example_end +:+ request_lines +:+ T +:+ closing_lines
  /\ occurrences original_heading (user_prompt_for T)
     = 2 + occurrences original_heading T
  /\ occurrences changes_heading (user_prompt_for T)
     = occurrences changes_heading T
  /\ occurrences original_heading ex_original = 0
  /\ occurrences original_heading ex_modified = 0
  /\ occurrences original_heading changes = 0.
Proof.
  destruct fixed_part_headings as (H2 & H0 & Hc2 & Hc0 & Hclean & Hclean').
  split; [vm_compute; reflexivity|].
  split; [|split].
  - rewrite (occurrences_in_prompt _ _ Hclean eq_refl), H2, Hc2. lia.
  - rewrite (occurrences_in_prompt _ _ Hclean' eq_refl), H0, Hc0. lia.
  - vm_compute. repeat split.
Qed.

(** C10, as it is worded, fails: a document that quotes the heading
    makes it occur a third time. *)
Lemma original_heading_not_always_twice :
  ~ (forall T : string,
       occurrences original_heading (user_prompt_for T) = 2).
Proof.
  intros H. specialize (H original_heading).
  vm_compute in H. discriminate H.
Qed.

End Prompts.

(* ===================================================================== *)
(** * The extracted text                                                  *)
(* ===================================================================== *)

Section Extraction.

Variable E : Externals.

Lemma str_join_cons2 (sep x y : string) (rest : list string) :
  str_join sep (x :: y :: rest) = x +:+ sep +:+ str_join sep (y :: rest).
Proof. reflexivity. Qed.

Lemma str_join_app_head (sep a b : string) (rest : list string) :
  str_join sep ((a +:+ b) :: rest) = a +:+ str_join sep (b :: rest).
Proof.
  destruct rest as [|y rest]; [reflexivity|].
  now rewrite !str_join_cons2, append_assoc.
Qed.

(** Python's [join] builds what the specification describes. *)
Lemma str_join_newline_separated (texts : list string) :
  str_join nl texts = newline_separated texts.
Proof.
  destruct texts as [|t rest]; [reflexivity|].
  unfold newline_separated. revert t.
  induction rest as [|u rest IH]; intros t; [reflexivity|].
  cbn [fold_left]. rewrite <- IH, str_join_cons2.
  now rewrite str_join_app_head, str_join_app_head.
Qed.

Lemma split_lines_from_app (t cur s : string) :
  has_char (ascii_of_nat 10) t = false ->
  split_lines_from cur (t +:+ s) = split_lines_from (cur +:+ t) s.
Proof.
  revert cur. induction t as [|c t IH]; intros cur H.
  - now rewrite append_nil_l, append_nil_r.
  - cbn [has_char] in H. apply orb_false_iff in H as [Hc Ht].
    rewrite append_cons. cbn [split_lines_from]. rewrite Hc, (IH _ Ht).
    now rewrite append_assoc.
Qed.

(** Splitting the joined text at its newlines gives the texts back, in
    order and with the empty ones, when no text holds a newline itself. *)
Lemma split_lines_str_join (t : string) (rest : list string) (cur : string) :
  Forall (fun x => has_char (ascii_of_nat 10) x = false) (t :: rest) ->
  split_lines_from cur (str_join nl (t :: rest)) = (cur +:+ t) :: rest.
Proof.
  revert t cur. induction rest as [|u rest IH]; intros t cur H.
  - cbn [str_join]. rewrite <- (append_nil_r t) at 1.
    rewrite split_lines_from_app; [reflexivity|]. now inversion H.
  - rewrite str_join_cons2. inversion H as [|? ? Ht Hrest]; subst.
    rewrite (split_lines_from_app _ _ _ Ht).
    change (nl +:+ str_join nl (u :: rest))
      with (String (ascii_of_nat 10) (str_join nl (u :: rest))).
    cbn [split_lines_from]. rewrite Ascii.eqb_refl.
    now rewrite (IH _ _ Hrest).
Qed.

Lemma read_document_run (self : ResolutionReviewer) (path : string) (w : world) :
  read_document E self path w
  = match fs w !! path with
    | Some data =>
        match docx_paragraphs E data with
        | Ok ps => (Ok (str_join nl (map text ps)), w)
        | Raise e => (Raise e, w)
        end
    | None =>
        (Raise (LibraryError true ("Package not found at '" +:+ path +:+ "'")), w)
    end.
Proof.
  unfold read_document, bind, Document, ret.
  destruct (fs w !! path) as [data|]; [|reflexivity].
  now destruct (docx_paragraphs E data).
Qed.

(** C4.  For a file that python-docx can parse, [read_document] returns
    the texts of its paragraphs in document order, each separated from
    the next by one newline, empty ones included; it succeeds whatever
    the texts are and leaves the world as it was. *)
Theorem read_document_joins_paragraphs
    (self : ResolutionReviewer) (path : string) (w : world)
    (data : list Byte.byte) (ps : list paragraph) :
  fs w !! path = Some data ->
  docx_paragraphs E data = Ok ps ->
  read_document E self path w = (Ok (newline_separated (map text ps)), w).
Proof.
  intros Hfile Hparse.
  now rewrite read_document_run, Hfile, Hparse, str_join_newline_separated.
Qed.

(** X9.  The lines of the extracted text are the paragraph texts: for a
    document with at least one paragraph and no line break inside a
    paragraph, splitting what [read_document] returns at the newlines
    gives the paragraph texts back, in order, the empty ones included. *)
Lemma read_document_lines
    (self : ResolutionReviewer) (path : string) (w : world)
    (data : list Byte.byte) (p : paragraph) (ps : list paragraph) :
  fs w !! path = Some data ->
  docx_paragraphs E data = Ok (p :: ps) ->
  Forall (fun q => has_char (ascii_of_nat 10) (text q) = false) (p :: ps) ->
  exists T, read_document E self path w = (Ok T, w)
            /\ split_lines T = map text (p :: ps).
Proof.
  intros Hfile Hparse Hnl. eexists. split.
  - now rewrite read_document_run, Hfile, Hparse.
  - unfold split_lines. cbn [map]. rewrite split_lines_str_join; [reflexivity|].
    rewrite <- Forall_map with (f := text) (P := fun x => has_char (ascii_of_nat 10) x = false) in Hnl.
    exact Hnl.
Qed.

End Extraction.

(** The sample document: three paragraphs, the middle one empty. *)
Lemma read_document_joins_paragraphs_witness :
  fs Sample.uploaded_world !! "temp_resolution.docx" = Some Sample.upload
  /\ docx_paragraphs Sample.externals Sample.upload = Ok Sample.paragraphs
  /\ read_document Sample.externals Sample.reviewer "temp_resolution.docx"
       Sample.uploaded_world
     = (Ok (newline_separated
              ["WHEREAS, test; and"; ""; "RESOLVED, Done."]),
        Sample.uploaded_world).
Proof.
  split; [vm_compute; reflexivity|]. split; [reflexivity|].
  apply (read_document_joins_paragraphs Sample.externals Sample.reviewer
           "temp_resolution.docx" Sample.uploaded_world
           Sample.upload Sample.paragraphs).
  - vm_compute. reflexivity.
  - reflexivity.
Defined.

(* ===================================================================== *)
(** * The review client                                                   *)
(* ===================================================================== *)

Section ReviewClient.

Variable E : Externals.

(** [review_resolution], step by step: where it can stop, and what it
    leaves behind at each point. *)
Lemma review_resolution_run
    (self : ResolutionReviewer) (path : string) (w : world) :
  review_resolution E self path w
  = match read_document E self path w with
    | (Raise e, w0) => (Raise e, w0)
    | (Ok T, w0) =>
        match token_counts E self T with
        | Raise e => (Raise e, w0)
        | Ok _ =>
            let req := request_for self T in
            let w1 := add_sent req w0 in
            match chat_completions_create E req with
            | Raise e => (Raise e, w1)
            | Ok response =>
                match choices response with
                | [] => (Raise (IndexError "list index out of range"), w1)
                | c :: _ =>
                    let w2 :=
                      add_stdout
                        ("DEBUG: response.choices[0].message.content = "
                         +:+ repr_content E (message_content c)) w1 in
                    match message_content c with
                    | Some s => (json_loads E s, w2)
                    | None =>
                        (Raise (TypeError
                           "the JSON object must be str, bytes or bytearray, not NoneType"),
                         w2)
                    end
                end
            end
        end
    end.
Proof.
  unfold review_resolution, bind at 1.
  destruct (read_document E self path w) as [[T|e] w0]; [|reflexivity].
  unfold token_counts, _get_examples, bind, create, request_for,
    user_prompt_for, _get_examples, first_content, py_print, loads, lift,
    ret, raise.
  cbv zeta.
  destruct (count_tokens E (system_prompt self)) as [n|e]; [|reflexivity].
  destruct (count_tokens E _) as [n'|e]; [|reflexivity].
  destruct (chat_completions_create E _) as [response|e]; [|reflexivity].
  destruct (choices response) as [|c rest]; [reflexivity|].
  now destruct (message_content c).
Qed.



(** A valid answer that lacks a required key is returned all the same. *)
Lemma review_resolution_does_not_validate
    (self : ResolutionReviewer) (path : string) (w : world) (T : string)
    (n : Z) (response : chat_response) (v : json) :
  read_document E self path w = (Ok T, w) ->
  token_counts E self T = Ok n ->
  chat_completions_create E (request_for self T) = Ok response ->
  parses_as E response v ->
  fst (review_resolution E self path w) = Ok v.
Proof.
  intros Hread Hcount Hcall (c & rest & s & Hch & Hmsg & Hs).
  rewrite review_resolution_run, Hread, Hcount. cbv zeta.
  now rewrite Hcall, Hch, Hmsg.
Qed.

End ReviewClient.



(** What the code does on that document. *)
Example quoting_document_is_not_sent :
  review_resolution Sample.externals_quoting Sample.reviewer
    "temp_resolution.docx" Sample.uploaded_world
  = (Raise (LibraryError true
       "Encountered text corresponding to disallowed special token '<|endoftext|>'."),
     Sample.uploaded_world).
Proof. vm_compute. reflexivity. Qed.

(* ===================================================================== *)
(** * The token counter                                                   *)
(* ===================================================================== *)

Section TokenCounter.

Lemma bind_ext {A B} (m1 m2 : M A) (k1 k2 : A -> M B) (w : world) :
  m1 w = m2 w -> (forall a w', k1 a w' = k2 a w') ->
  bind m1 k1 w = bind m2 k2 w.
Proof.
  intros Hm Hk. unfold bind. rewrite Hm.
  destruct (m2 w) as [[a|e] w']; [apply Hk | reflexivity].
Qed.

Lemma try_except_ext {A} (b1 b2 : M A) (h1 h2 : exn -> M A) (w : world) :
  b1 w = b2 w -> (forall e w', h1 e w' = h2 e w') ->
  try_except b1 h1 w = try_except b2 h2 w.
Proof.
  intros Hb Hh. unfold try_except. rewrite Hb.
  destruct (b2 w) as [[a|e] w']; [reflexivity|].
  destruct (is_Exception e); [apply Hh | reflexivity].
Qed.

Lemma try_finally_ext {A} (b1 b2 : M A) (f : M unit) (w : world) :
  b1 w = b2 w -> try_finally b1 f w = try_finally b2 f w.
Proof. intros Hb. unfold try_finally. now rewrite Hb. Qed.

Variable E : Externals.
Variable enc : string -> string -> result (list Z).

(** Reading does not look at the tokenizer. *)
Lemma read_document_any_tokenizer
    (self : ResolutionReviewer) (path : string) (w : world) :
  read_document (with_tokenizer enc E) self path w
  = read_document E self path w.
Proof. reflexivity. Qed.

(** With the counts computed under both tokenizers, the run is the same
    under both. *)
Lemma review_resolution_same_when_counted
    (self : ResolutionReviewer) (path : string) (w : world) :
  (forall T, fst (read_document E self path w) = Ok T ->
     (exists n, token_counts E self T = Ok n)
     /\ (exists n', token_counts (with_tokenizer enc E) self T = Ok n')) ->
  review_resolution (with_tokenizer enc E) self path w
  = review_resolution E self path w.
Proof.
  intros H. rewrite !review_resolution_run, read_document_any_tokenizer.
  destruct (read_document E self path w) as [[T|e] w0] eqn:Hr;
    [|reflexivity].
  destruct (H T eq_refl) as [[n Hn] [n' Hn']].
  rewrite Hn, Hn'. reflexivity.
Qed.

Lemma analyze_same_when_counted (S : Session) (self : ResolutionReviewer)
    (path : string) (src tmp : option string) (w : world) :
  (forall self T, exists n, token_counts E self T = Ok n) ->
  (forall self T, exists n, token_counts (with_tokenizer enc E) self T = Ok n) ->
  analyze_and_display_results (with_tokenizer enc E) S self path src tmp w
  = analyze_and_display_results E S self path src tmp w.
Proof.
  intros H1 H2. unfold analyze_and_display_results.
  apply bind_ext; [reflexivity|]. intros [|] w1; [|reflexivity].
  apply try_finally_ext, try_except_ext; [|reflexivity].
  apply bind_ext; [reflexivity|]. intros _ w2.
  apply bind_ext; [|reflexivity].
  apply review_resolution_same_when_counted. intros T _. split; auto.
Qed.

(** With tokenizers that never raise, the whole script does the same
    under both. *)
Lemma main_same_when_counted (S : Session) (w : world) :
  (forall self T, exists n, token_counts E self T = Ok n) ->
  (forall self T, exists n, token_counts (with_tokenizer enc E) self T = Ok n) ->
  main (with_tokenizer enc E) S w = main E S w.
Proof.
  intros H1 H2. unfold main.
  do 4 (apply bind_ext; [reflexivity|]; intros ? ?).
  apply bind_ext; [reflexivity|]. intros [[[path|] src] tmp] w4; [|reflexivity].
  destruct (str_truthy path); [|reflexivity].
  apply bind_ext; [reflexivity|]. intros self w5.
  apply bind_ext; [reflexivity|]. intros _ w6.
  now apply analyze_same_when_counted.
Qed.


End TokenCounter.



(* ===================================================================== *)
(** * Reasoning about computations                                        *)
(* ===================================================================== *)

(** A relation between the world before and the world after that every
    step of a computation keeps is kept by the computation. *)
Section Frames.

Variable R : world -> world -> Prop.
Hypothesis R_refl : forall w, R w w.
Hypothesis R_trans : forall a b c, R a b -> R b c -> R a c.

#[local] Abbreviation keeps := (keeps R).

Lemma keeps_ret {A} (a : A) : keeps (ret a).
Proof. intros w. apply R_refl. Qed.

Lemma keeps_raise {A} (e : exn) : keeps (@raise A e).
Proof. intros w. apply R_refl. Qed.

Lemma keeps_lift {A} (r : result A) : keeps (lift r).
Proof. intros w. apply R_refl. Qed.

Lemma keeps_bind {A B} (m : M A) (k : A -> M B) :
  keeps m -> (forall a, keeps (k a)) -> keeps (bind m k).
Proof.
  intros Hm Hk w. unfold bind. specialize (Hm w).
  destruct (m w) as [[a|e] w']; simpl in *; [|exact Hm].
  eapply R_trans; [exact Hm | apply Hk].
Qed.

Lemma keeps_try_except {A} (body : M A) (handler : exn -> M A) :
  keeps body -> (forall e, keeps (handler e)) -> keeps (try_except body handler).
Proof.
  intros Hb Hh w. unfold try_except. specialize (Hb w).
  destruct (body w) as [[a|e] w']; simpl in *; [exact Hb|].
  destruct (is_Exception e); [|exact Hb].
  eapply R_trans; [exact Hb | apply Hh].
Qed.

Lemma keeps_try_finally {A} (body : M A) (final : M unit) :
  keeps body -> keeps final -> keeps (try_finally body final).
Proof.
  intros Hb Hf w. unfold try_finally. specialize (Hb w).
  destruct (body w) as [r w']. specialize (Hf w'). simpl in *.
  destruct (final w') as [[u|e] w'']; simpl in *;
    eapply R_trans; eauto.
Qed.

Lemma keeps_for_each {A} (l : list A) (body : A -> M unit) :
  (forall x, keeps (body x)) -> keeps (for_each l body).
Proof.
  intros Hb. induction l as [|x l IH]; simpl.
  - apply keeps_ret.
  - apply keeps_bind; [apply Hb | intros _; exact IH].
Qed.

End Frames.

Section Catchable.

Lemma catchable_ret {A} (a : A) : catchable (ret a).
Proof. intros w e H. discriminate H. Qed.

Lemma catchable_st (c : container) (x : element) : catchable (st c x).
Proof. intros w e H. discriminate H. Qed.

Lemma catchable_bind {A B} (m : M A) (k : A -> M B) :
  catchable m -> (forall a, catchable (k a)) -> catchable (bind m k).
Proof.
  intros Hm Hk w e. unfold bind. specialize (Hm w).
  destruct (m w) as [[a|e'] w']; simpl in *.
  - apply Hk.
  - intros H. injection H as <-. now apply Hm.
Qed.

Lemma catchable_for_each {A} (l : list A) (body : A -> M unit) :
  (forall x, catchable (body x)) -> catchable (for_each l body).
Proof.
  intros Hb. induction l as [|x l IH]; simpl.
  - apply catchable_ret.
  - apply catchable_bind; [apply Hb | intros _; exact IH].
Qed.

Lemma catchable_getitem (v : json) (key : string) : catchable (lift (getitem v key)).
Proof.
  intros w e. unfold lift. simpl.
  destruct v; simpl; try (intros H; injection H as <-; reflexivity).
  destruct (dict_get items key); [discriminate|].
  intros H. injection H as <-. reflexivity.
Qed.

Lemma catchable_iterate (v : json) : catchable (lift (iterate v)).
Proof.
  intros w e. unfold lift. simpl.
  destruct v; simpl; try discriminate;
    intros H; injection H as <-; reflexivity.
Qed.

End Catchable.

Section Tame.

Lemma draws_quietly_refl (w : world) : draws_quietly w w.
Proof. exists []. split; [now rewrite app_nil_r | constructor]. Qed.

Lemma draws_quietly_trans (a b c : world) :
  draws_quietly a b -> draws_quietly b c -> draws_quietly a c.
Proof.
  intros (s1 & H1 & Q1) (s2 & H2 & Q2). exists (s1 ++ s2). split.
  - now rewrite H2, H1, app_assoc.
  - now apply Forall_app.
Qed.

Lemma tame_ret {A} (a : A) : tame (ret a).
Proof. split; [apply keeps_ret, draws_quietly_refl | apply catchable_ret]. Qed.

Lemma tame_st (c : container) (x : element) :
  is_info (c, x) = false -> tame (st c x).
Proof.
  intros Hx. split; [|apply catchable_st].
  intros w. exists [(c, x)]. split; [reflexivity|].
  constructor; [exact Hx | constructor].
Qed.

Lemma tame_bind {A B} (m : M A) (k : A -> M B) :
  tame m -> (forall a, tame (k a)) -> tame (bind m k).
Proof.
  intros [Hm Hm'] Hk. split.
  - apply keeps_bind;
      [apply draws_quietly_trans | exact Hm | intros a; apply Hk].
  - apply catchable_bind; [exact Hm' | intros a; apply Hk].
Qed.

Lemma tame_for_each {A} (l : list A) (body : A -> M unit) :
  (forall x, tame (body x)) -> tame (for_each l body).
Proof.
  intros Hb. split.
  - apply keeps_for_each;
      [apply draws_quietly_refl | apply draws_quietly_trans
      | intros x; apply Hb].
  - apply catchable_for_each. intros x. apply Hb.
Qed.

Lemma tame_getitem (v : json) (key : string) : tame (lift (getitem v key)).
Proof.
  split; [apply keeps_lift, draws_quietly_refl | apply catchable_getitem].
Qed.

Lemma tame_iterate (v : json) : tame (lift (iterate v)).
Proof.
  split; [apply keeps_lift, draws_quietly_refl | apply catchable_iterate].
Qed.

(** A computation fails as soon as one of its steps does, *)
Lemma fails_lift_raise {A B} (e : exn) (k : A -> M B) :
  is_Exception e = true -> fails (bind (lift (Raise e)) k).
Proof.
  intros He w. exists [], e. unfold bind, lift. simpl.
  rewrite app_nil_r. repeat split; [constructor | exact He].
Qed.

Lemma fails_lift_ok {A B} (a : A) (k : A -> M B) :
  fails (k a) -> fails (bind (lift (Ok a)) k).
Proof. intros H w. exact (H w). Qed.

(** and stays failed after tame steps. *)
Lemma fails_after {A B} (m : M A) (k : A -> M B) :
  tame m -> (forall a, fails (k a)) -> fails (bind m k).
Proof.
  intros [Hm Hm'] Hk w. unfold bind.
  specialize (Hm w). specialize (Hm' w).
  destruct (m w) as [[a|e] w']; simpl in *.
  - destruct Hm as (s1 & H1 & Q1).
    destruct (Hk a w') as (s2 & e & H2 & Q2 & Hr & He).
    exists (s1 ++ s2), e. rewrite H2, H1, app_assoc.
    repeat split; [now apply Forall_app | exact Hr | exact He].
  - destruct Hm as (s1 & H1 & Q1). exists s1, e.
    repeat split; [exact H1 | exact Q1 | now apply Hm'].
Qed.

End Tame.

(* ===================================================================== *)
(** * The review action                                                   *)
(* ===================================================================== *)

Section ReviewAction.

Variable E : Externals.
Variable S : Session.

(** ** The [finally] block *)

(** For an uploaded file, the block removes the file if it is there, and
    never raises. *)
Lemma cleanup_uploaded (p : string) (w : world) :
  cleanup (Some "uploaded") (Some p) w
  = (Ok tt, set_fs (delete p (fs w)) w).
Proof.
  unfold cleanup, bind, os_path_exists, os_remove, ret. simpl.
  destruct (fs w !! p) as [data|] eqn:Hp.
  - rewrite bool_decide_true by eauto. now rewrite Hp.
  - rewrite bool_decide_false by (intros [? ?]; discriminate).
    rewrite delete_id by exact Hp. now destruct w.
Qed.

Lemma try_finally_cleanup {A} (body : M A) (p : string) (w : world) :
  try_finally body (cleanup (Some "uploaded") (Some p)) w
  = (fst (body w),
     set_fs (delete p (fs (snd (body w)))) (snd (body w))).
Proof.
  unfold try_finally. destruct (body w) as [r w'].
  now rewrite cleanup_uploaded.
Qed.

Lemma analyze_clicked (self : ResolutionReviewer) (path : string)
    (src tmp : option string) (w : world) :
  button_clicked S = true ->
  analyze_and_display_results E S self path src tmp w
  = try_finally
      (try_except
         (bind (st Page (spinner "Analyzing resolution..."))
            (fun _ => bind (review_resolution E self path) (display_results E)))
         (fun e => st Page (error ("An error occurred: " +:+ exn_str E e))))
      (cleanup src tmp)
      (add_ui (Page, button "Analyze Resolution" "primary") w).
Proof.
  intros Hc. unfold analyze_and_display_results, bind at 1, st_button.
  now rewrite Hc.
Qed.

Lemma analyze_clicked_deletes
    (self : ResolutionReviewer) (path p : string) (w : world) :
  button_clicked S = true ->
  fs (snd (analyze_and_display_results E S self path
             (Some "uploaded") (Some p) w))
    !! p = None.
Proof.
  intros Hc. rewrite (analyze_clicked _ _ _ _ _ Hc), try_finally_cleanup.
  apply lookup_delete_eq.
Qed.

(** C1.  Once the review is triggered on an uploaded file, no file is
    left at the temporary path when the action ends: whether
    [review_resolution] returns or raises, whether the result can be
    drawn or not, and whether or not the exception is one that the action
    catches. *)
Theorem review_action_removes_upload
    (self : ResolutionReviewer) (path : string) (w : world) :
  button_clicked S = true ->
  fs (snd (analyze_and_display_results E S self path
             (Some "uploaded") (Some temp_path) w))
    !! temp_path = None.
Proof. apply analyze_clicked_deletes. Qed.

(** ** Drawing the result *)

Lemma violation_panel_tame (col : container) (violation : json) :
  tame (violation_panel E col violation).
Proof.
  unfold violation_panel.
  apply tame_bind; [apply tame_getitem | intros location; cbv zeta].
  apply tame_bind; [now apply tame_st | intros _].
  apply tame_bind; [apply tame_getitem | intros rule].
  apply tame_bind; [now apply tame_st | intros _].
  apply tame_bind; [apply tame_getitem | intros description].
  apply tame_bind; [now apply tame_st | intros _].
  apply tame_bind; [apply tame_getitem | intros suggestion].
  now apply tame_st.
Qed.

Lemma tame_lift {A} (r : result A) :
  (forall e, r = Raise e -> is_Exception e = true) -> tame (lift r).
Proof.
  intros Hr. split; [apply keeps_lift, draws_quietly_refl|].
  intros w e H. now apply Hr.
Qed.

Lemma violations_block_tame (lookup : result json)
    (col : container) (none_found : string) (found : json) :
  (forall e, lookup = Raise e -> is_Exception e = true) ->
  tame (if truthy found then
          bind (lift lookup) (fun again =>
          bind (lift (iterate again)) (fun violations =>
          for_each violations (violation_panel E col)))
        else st col (success none_found)).
Proof.
  intros Hl. destruct (truthy found); [|now apply tame_st].
  apply tame_bind; [now apply tame_lift | intros again].
  apply tame_bind; [apply tame_iterate | intros violations].
  apply tame_for_each. intros x. apply violation_panel_tame.
Qed.

(** With a required key missing, drawing the result ends in an exception
    that the action catches, before any assessment is shown. *)
Lemma display_results_fails (items : list (string * json)) :
  (exists key, In key required_keys /\ dict_get items key = None) ->
  fails (display_results E (JDict items)).
Proof.
  intros Hmissing. unfold display_results. cbv zeta.
  apply fails_after; [now apply tame_st | intros _].
  apply fails_after; [now apply tame_st | intros _].
  apply fails_after; [now apply tame_st | intros _].
  cbn [getitem].
  destruct (dict_get items "template_violations") as [tv|] eqn:Htv;
    [apply fails_lift_ok | now apply fails_lift_raise].
  apply fails_after; [now apply violations_block_tame | intros _].
  apply fails_after; [now apply tame_st | intros _].
  cbn [getitem].
  destruct (dict_get items "formatting_violations") as [fv|] eqn:Hfv;
    [apply fails_lift_ok | now apply fails_lift_raise].
  apply fails_after; [now apply violations_block_tame | intros _].
  apply fails_after; [now apply tame_st | intros _].
  cbn [getitem].
  destruct (dict_get items "overall_assessment") as [oa|] eqn:Hoa;
    [|now apply fails_lift_raise].
  exfalso. destruct Hmissing as (key & Hin & Hnone).
  simpl in Hin. destruct Hin as [<- | [<- | [<- | []]]]; congruence.
Qed.

(** When [review_resolution] returns, the action goes on to draw what it
    returned. *)
Lemma review_then_display (self : ResolutionReviewer) (path : string)
    (w w1 : world) (results : json) :
  review_resolution E self path (reviewing w) = (Ok results, w1) ->
  bind (st Page (spinner "Analyzing resolution..."))
    (fun _ => bind (review_resolution E self path) (display_results E))
    (add_ui (Page, button "Analyze Resolution" "primary") w)
  = display_results E results w1.
Proof.
  intros Hr. unfold bind at 1, st. unfold bind at 1.
  unfold reviewing in Hr. now rewrite Hr.
Qed.

(** C6.  When the review returns a mapping whose two violation lists are
    empty, the action draws, after the button and the spinner, the two
    column headings each with its "no violations" indicator and then the
    overall assessment, and nothing else. *)
Theorem clean_review_is_displayed
    (self : ResolutionReviewer) (path : string) (w w1 : world)
    (items : list (string * json)) (assessment : json) :
  button_clicked S = true ->
  review_resolution E self path (reviewing w) = (Ok (JDict items), w1) ->
  dict_get items "template_violations" = Some (JList []) ->
  dict_get items "formatting_violations" = Some (JList []) ->
  dict_get items "overall_assessment" = Some assessment ->
  let out :=
    analyze_and_display_results E S self path
      (Some "uploaded") (Some temp_path) w in
  fst out = Ok tt /\ ui (snd out) = ui w1 ++ clean_review assessment.
Proof.
  intros Hc Hr Htv Hfv Hoa out. subst out.
  rewrite (analyze_clicked _ _ _ _ _ Hc), try_finally_cleanup.
  unfold try_except.
  rewrite (review_then_display _ _ _ _ _ Hr).
  unfold display_results, bind, st, lift. cbn [getitem].
  rewrite Htv, Hfv, Hoa. cbn [truthy].
  split; [reflexivity|]. simpl. now rewrite <- !app_assoc.
Qed.

(** C7.  When the review returns a mapping that lacks one of the three
    required keys, the action ends by showing an inline error: what it
    drew of the result before is followed by [st.error] with the text of
    the exception, no overall assessment is shown, and the action itself
    ends normally. *)
Theorem missing_key_is_reported
    (self : ResolutionReviewer) (path : string) (w w1 : world)
    (items : list (string * json)) :
  button_clicked S = true ->
  review_resolution E self path (reviewing w) = (Ok (JDict items), w1) ->
  (exists key, In key required_keys /\ dict_get items key = None) ->
  let out :=
    analyze_and_display_results E S self path
      (Some "uploaded") (Some temp_path) w in
  exists shown e,
    fst out = Ok tt
    /\ ui (snd out)
       = ui w1 ++ shown
           ++ [(Page, error ("An error occurred: " +:+ exn_str E e))]
    /\ quiet shown
    /\ is_Exception e = true.
Proof.
  intros Hc Hr Hmissing out. subst out.
  destruct (display_results_fails items Hmissing w1)
    as (shown & e & Hui & Hq & Hraise & He).
  exists shown, e.
  rewrite (analyze_clicked _ _ _ _ _ Hc), try_finally_cleanup.
  unfold try_except.
  rewrite (review_then_display _ _ _ _ _ Hr).
  destruct (display_results E (JDict items) w1) as [r w2].
  cbn [fst snd] in Hui, Hraise. subst r. rewrite He. unfold st.
  cbn [fst snd]. split; [reflexivity|]. split; [|split; [exact Hq | reflexivity]].
  cbn [set_fs add_ui ui]. now rewrite Hui, <- app_assoc.
Qed.

End ReviewAction.

(** The sample run of the review action: the upload is on disk, the
    button is clicked. *)
Lemma review_action_removes_upload_witness :
  button_clicked Sample.session = true
  /\ fs Sample.uploaded_world !! temp_path = Some Sample.upload
  /\ fs (snd (analyze_and_display_results Sample.externals Sample.session
                Sample.reviewer "temp_resolution.docx"
                (Some "uploaded") (Some temp_path) Sample.uploaded_world))
       !! temp_path = None.
Proof.
  split; [reflexivity|]. split; [vm_compute; reflexivity|].
  apply (review_action_removes_upload Sample.externals Sample.session
           Sample.reviewer "temp_resolution.docx" Sample.uploaded_world).
  reflexivity.
Defined.

(** The same when the call to the endpoint is interrupted: the exception
    passes through [except Exception], and the file is removed on the way
    out. *)
Example interrupted_review_still_cleans :
  let out :=
    analyze_and_display_results Sample.externals_interrupted Sample.session
      Sample.reviewer "temp_resolution.docx"
      (Some "uploaded") (Some temp_path) Sample.uploaded_world in
  fst out = Raise (LibraryError false "KeyboardInterrupt")
  /\ fs (snd out) !! temp_path = None
  /\ length (sent (snd out)) = 1.
Proof. vm_compute. repeat split. Qed.

(** The sample run with the well-formed answer. *)
Lemma clean_review_is_displayed_witness :
  let w := Sample.uploaded_world in
  let run :=
    review_resolution Sample.externals Sample.reviewer
      "temp_resolution.docx" (reviewing w) in
  let out :=
    analyze_and_display_results Sample.externals Sample.session
      Sample.reviewer "temp_resolution.docx"
      (Some "uploaded") (Some temp_path) w in
  button_clicked Sample.session = true
  /\ fst run = Ok Sample.clean_result
  /\ fst out = Ok tt
  /\ ui (snd out)
     = ui (snd run)
         ++ clean_review (JStr "The resolution follows the template.").
Proof.
  intros w run out.
  assert (Hrun : run = (Ok Sample.clean_result, snd run))
    by (vm_compute; reflexivity).
  split; [reflexivity|]. split; [now rewrite Hrun|].
  apply (clean_review_is_displayed Sample.externals Sample.session
           Sample.reviewer "temp_resolution.docx" w (snd run)
           [("template_violations", JList []);
            ("formatting_violations", JList []);
            ("overall_assessment", JStr "The resolution follows the template.")]
           (JStr "The resolution follows the template."));
    [reflexivity | exact Hrun | reflexivity | reflexivity | reflexivity].
Defined.

(** The sample run with an answer that has no [overall_assessment]. *)
Lemma missing_key_is_reported_witness :
  let w := Sample.uploaded_world in
  let run :=
    review_resolution Sample.externals_partial Sample.reviewer
      "temp_resolution.docx" (reviewing w) in
  let out :=
    analyze_and_display_results Sample.externals_partial Sample.session
      Sample.reviewer "temp_resolution.docx"
      (Some "uploaded") (Some temp_path) w in
  button_clicked Sample.session = true
  /\ fst run = Ok Sample.partial_result
  /\ exists shown e,
       fst out = Ok tt
       /\ ui (snd out)
          = ui (snd run) ++ shown
              ++ [(Page, error ("An error occurred: "
                                +:+ exn_str Sample.externals_partial e))]
       /\ quiet shown
       /\ is_Exception e = true.
Proof.
  intros w run out.
  assert (Hrun : run = (Ok Sample.partial_result, snd run))
    by (vm_compute; reflexivity).
  split; [reflexivity|]. split; [now rewrite Hrun|].
  apply (missing_key_is_reported Sample.externals_partial Sample.session
           Sample.reviewer "temp_resolution.docx" w (snd run)
           [("template_violations", JList []);
            ("formatting_violations", JList [])]);
    [reflexivity | exact Hrun |].
  exists "overall_assessment". split; [simpl; auto | reflexivity].
Defined.

(** What the sample run with the incomplete answer shows: both columns,
    the heading of the assessment, and then the error with the missing
    key. *)
Example missing_assessment_shown :
  ui (snd (analyze_and_display_results Sample.externals_partial Sample.session
             Sample.reviewer "temp_resolution.docx"
             (Some "uploaded") (Some temp_path) Sample.uploaded_world))
  = [(Page, button "Analyze Resolution" "primary");
     (Page, spinner "Analyzing resolution...");
     (Page, header "Review Results");
     (Page, columns 2);
     (Column 1, subheader "Template Violations");
     (Column 1, success "No template violations found.");
     (Column 2, subheader "Formatting Violations");
     (Column 2, success "No formatting violations found.");
     (Page, subheader "Overall Assessment");
     (Page, error "An error occurred: 'overall_assessment'")].
Proof. vm_compute. reflexivity. Qed.

(* ===================================================================== *)
(** * The script                                                          *)
(* ===================================================================== *)

Section Script.

Variable E : Externals.
Variable S : Session.

Lemma continues_refl (w : world) : continues w w.
Proof.
  split; [exists []; now rewrite app_nil_r | intros q; now right].
Qed.

Lemma continues_trans (a b c : world) :
  continues a b -> continues b c -> continues a c.
Proof.
  intros [(s1 & H1) F1] [(s2 & H2) F2]. split.
  - exists (s1 ++ s2). now rewrite H2, H1, app_assoc.
  - intros q. destruct (F1 q) as [-> | Hq1]; [now left|].
    destruct (F2 q) as [-> | Hq2]; [now left|]. right. congruence.
Qed.

(** A step that leaves the page and the files alone. *)
Lemma continues_same (w w' : world) :
  ui w' = ui w -> fs w' = fs w -> continues w w'.
Proof.
  intros Hu Hf. split; [exists []; now rewrite app_nil_r|].
  intros q. right. now rewrite Hf.
Qed.

Lemma continues_st (c : container) (x : element) : keeps continues (st c x).
Proof. intros w. split; [now exists [(c, x)] | intros q; now right]. Qed.

Lemma continues_write_temp (data : list Byte.byte) :
  keeps continues (write_file temp_path data).
Proof.
  intros w. split; [exists []; simpl; now rewrite app_nil_r|].
  intros q. simpl. destruct (decide (q = temp_path)) as [-> | Hne];
    [now left | right]. now rewrite lookup_insert_ne.
Qed.

Lemma continues_read_document (self : ResolutionReviewer) (path : string) :
  keeps continues (read_document E self path).
Proof.
  intros w. rewrite read_document_run.
  destruct (fs w !! path) as [data|]; [|apply continues_refl].
  destruct (docx_paragraphs E data); apply continues_refl.
Qed.

Lemma continues_review_resolution (self : ResolutionReviewer) (path : string) :
  keeps continues (review_resolution E self path).
Proof.
  intros w. rewrite review_resolution_run.
  pose proof (continues_read_document self path w) as Hread.
  destruct (read_document E self path w) as [[T|e] w0]; [|exact Hread].
  simpl in Hread.
  destruct (token_counts E self T) as [n|e]; [|exact Hread].
  cbv zeta. apply (continues_trans _ _ _ Hread).
  destruct (chat_completions_create E _) as [response|e];
    [|now apply continues_same].
  destruct (choices response) as [|c rest]; [now apply continues_same|].
  destruct (message_content c); now apply continues_same.
Qed.

Lemma continues_bind {A B} (m : M A) (k : A -> M B) :
  keeps continues m -> (forall a, keeps continues (k a)) ->
  keeps continues (bind m k).
Proof. apply keeps_bind, continues_trans. Qed.

Lemma continues_violation_panel (col : container) (violation : json) :
  keeps continues (violation_panel E col violation).
Proof.
  unfold violation_panel.
  repeat first
    [ apply continues_st
    | apply (keeps_lift continues continues_refl)
    | apply continues_bind; [|intros ?; cbv zeta] ].
Qed.

Lemma continues_display_results (results : json) :
  keeps continues (display_results E results).
Proof.
  unfold display_results. cbv zeta.
  repeat first
    [ apply continues_st
    | apply (keeps_lift continues continues_refl)
    | apply (keeps_for_each continues continues_refl continues_trans);
      intros ?; apply continues_violation_panel
    | apply continues_bind; [|intros ?]
    | match goal with |- keeps continues (if ?b then _ else _) => destruct b end ].
Qed.

Lemma continues_cleanup_temp :
  keeps continues (cleanup (Some "uploaded") (Some temp_path)).
Proof.
  intros w. rewrite cleanup_uploaded. split;
    [exists []; simpl; now rewrite app_nil_r|].
  intros q. simpl. destruct (decide (q = temp_path)) as [-> | Hne];
    [now left | right]. now rewrite lookup_delete_ne.
Qed.

Lemma continues_analyze (self : ResolutionReviewer) (path : string) :
  keeps continues
    (analyze_and_display_results E S self path
       (Some "uploaded") (Some temp_path)).
Proof.
  unfold analyze_and_display_results.
  apply continues_bind.
  { intros w. split; [now eexists [_] | intros q; now right]. }
  intros [|]; [|apply keeps_ret, continues_refl].
  apply keeps_try_finally;
    [apply continues_trans | | apply continues_cleanup_temp].
  apply keeps_try_except;
    [apply continues_trans | | intros e; apply continues_st].
  apply continues_bind; [apply continues_st | intros _].
  apply continues_bind;
    [apply continues_review_resolution | apply continues_display_results].
Qed.

Lemma continues_show_document_preview (self : ResolutionReviewer) (path : string) :
  keeps continues (show_document_preview E self path).
Proof.
  unfold show_document_preview. cbv zeta.
  apply continues_bind; [apply continues_st | intros _].
  apply keeps_try_except;
    [apply continues_trans | | intros e; apply continues_st].
  apply continues_bind;
    [apply continues_read_document | intros T; apply continues_st].
Qed.

(** What [select_or_upload_file] does: with an upload, the file at the
    temporary path is created or replaced and holds the upload; without
    one, nothing is written. *)
Lemma select_or_upload_file_run (res_dir : string) (w : world) :
  select_or_upload_file S res_dir w
  = match uploaded_file S with
    | Some data =>
        (Ok (Some temp_path, Some "uploaded", Some temp_path),
         World (<[temp_path := data]> (fs w)) (ui w ++ upload_controls)
           (sent w) (clients w) (stdout w))
    | None =>
        (Ok (None, None, None),
         World (fs w) (ui w ++ upload_controls) (sent w) (clients w) (stdout w))
    end.
Proof.
  unfold select_or_upload_file, bind, st, st_file_uploader, write_file, ret,
    add_ui, set_fs, upload_controls.
  simpl. destruct (uploaded_file S); simpl; now rewrite <- !app_assoc.
Qed.

Lemma continues_upload_and_review (key : string) :
  keeps continues (upload_and_review E S key).
Proof.
  intros w. unfold upload_and_review, bind at 1.
  rewrite select_or_upload_file_run.
  destruct (uploaded_file S) as [data|].
  - change (str_truthy temp_path) with true. cbv iota.
    eapply continues_trans; [|apply continues_bind].
    + split; [now eexists | intros q].
      simpl. destruct (decide (q = temp_path)) as [-> | Hne];
        [now left | right]. now rewrite lookup_insert_ne.
    + intros w'. now apply continues_same.
    + intros self. apply continues_bind;
        [apply continues_show_document_preview | intros _].
      apply continues_analyze.
  - eapply continues_trans; [|apply continues_st].
    split; [now eexists | intros q; now right].
Qed.

Lemma main_without_key (w : world) :
  opt_str_truthy (os_getenv S "OPENAI_API_KEY") = false ->
  main E S w
  = (Raise StopException,
     World (fs w) (ui w ++ page_top ++ [missing_key_error])
       (sent w) (clients w) (stdout w)).
Proof.
  intros Hkey. unfold main, bind, st, st_stop, raise, add_ui, page_top,
    missing_key_error. simpl.
  destruct (os_getenv S "OPENAI_API_KEY") as [k|]; simpl in *.
  - rewrite Hkey. simpl. now rewrite <- !app_assoc.
  - now rewrite <- !app_assoc.
Qed.

Lemma main_with_key (w : world) (k : string) :
  os_getenv S "OPENAI_API_KEY" = Some k -> str_truthy k = true ->
  main E S w
  = upload_and_review E S k
      (World (fs w) (ui w ++ page_top) (sent w) (clients w) (stdout w)).
Proof.
  intros Hkey Hk. unfold main, bind at 1 2 3 4, st, add_ui, page_top. simpl.
  rewrite Hkey, Hk. unfold ret. now rewrite <- !app_assoc.
Qed.

Lemma upload_and_review_ui (k : string) (w : world) :
  exists rest,
    ui (snd (upload_and_review E S k w)) = ui w ++ upload_controls ++ rest.
Proof.
  unfold upload_and_review, bind at 1.
  rewrite select_or_upload_file_run.
  destruct (uploaded_file S) as [data|].
  - change (str_truthy temp_path) with true. cbv iota.
    match goal with
    | |- context [snd (bind ?m ?k ?w0)] =>
        assert (Hc : keeps continues (bind m k));
        [|destruct (Hc w0) as [(rest & Hrest) _]; exists rest;
          rewrite Hrest; cbn [ui]; now rewrite <- app_assoc]
    end.
    apply continues_bind; [intros w'; now apply continues_same|].
    intros self. apply continues_bind;
      [apply continues_show_document_preview | intros _].
    apply continues_analyze.
  - exists [(Page, info (JStr "Please upload a .docx file to begin."))].
    unfold st, add_ui. cbn [snd ui]. now rewrite <- app_assoc.
Qed.

Lemma continues_main : keeps continues (main E S).
Proof.
  intros w.
  destruct (opt_str_truthy (os_getenv S "OPENAI_API_KEY")) eqn:Hkey.
  - destruct (os_getenv S "OPENAI_API_KEY") as [k|] eqn:Hk; [|discriminate].
    rewrite (main_with_key w k Hk Hkey).
    eapply continues_trans; [|apply continues_upload_and_review].
    split; [now eexists | intros q; now right].
  - rewrite (main_without_key w Hkey).
    split; [now eexists | intros q; now right].
Qed.

(** C8.  Without a key in [OPENAI_API_KEY] (unset, or empty) the script
    shows the error and stops there: nothing else is drawn, no client or
    reviewer is built, no file is written and no request is sent.  With
    a key it goes on to draw the upload control. *)
Theorem missing_key_halts (w : world) :
  if opt_str_truthy (os_getenv S "OPENAI_API_KEY") then
    exists rest,
      ui (snd (main E S w)) = ui w ++ page_top ++ upload_controls ++ rest
  else
    main E S w
    = (Raise StopException,
       World (fs w) (ui w ++ page_top ++ [missing_key_error])
         (sent w) (clients w) (stdout w)).
Proof.
  destruct (opt_str_truthy (os_getenv S "OPENAI_API_KEY")) eqn:Hkey.
  - destruct (os_getenv S "OPENAI_API_KEY") as [k|] eqn:Hk; [|discriminate].
    rewrite (main_with_key w k Hk Hkey).
    destruct (upload_and_review_ui k
                (World (fs w) (ui w ++ page_top) (sent w) (clients w) (stdout w)))
      as (rest & Hrest).
    exists rest. rewrite Hrest. simpl. now rewrite <- app_assoc.
  - now apply main_without_key.
Qed.

(** C9.  An upload is written to the one fixed path, whose file is
    created or replaced and then holds exactly the upload; without an
    upload nothing is written.  A whole run of the script leaves every
    file at any other path as it was. *)
Theorem single_upload_path :
  (forall (res_dir : string) (w : world),
     let out := select_or_upload_file S res_dir w in
     match uploaded_file S with
     | Some data =>
         fst out = Ok (Some temp_path, Some "uploaded", Some temp_path)
         /\ fs (snd out) = <[temp_path := data]> (fs w)
     | None =>
         fst out = Ok (None, None, None) /\ fs (snd out) = fs w
     end)
  /\ (forall (w : world) (q : string),
        q = temp_path \/ fs (snd (main E S w)) !! q = fs w !! q).
Proof.
  split.
  - intros res_dir w out. subst out. rewrite select_or_upload_file_run.
    now destruct (uploaded_file S).
  - intros w q. apply continues_main.
Qed.

(** X11.  When the preview cannot bring the script down, a run in which
    a file is uploaded and the review is triggered leaves nothing at the
    temporary path. *)
Lemma main_review_leaves_no_upload (w : world) (k : string)
    (data : list Byte.byte) :
  os_getenv S "OPENAI_API_KEY" = Some k -> str_truthy k = true ->
  uploaded_file S = Some data ->
  button_clicked S = true ->
  (forall d e, docx_paragraphs E d = Raise e -> is_Exception e = true) ->
  fs (snd (main E S w)) !! temp_path = None.
Proof.
  intros Hkey Hk Hup Hc Hdocx.
  rewrite (main_with_key w k Hkey Hk).
  unfold upload_and_review, bind at 1.
  rewrite select_or_upload_file_run, Hup.
  change (str_truthy temp_path) with true. cbv iota.
  unfold bind at 1, __init__. unfold bind at 1.
  match goal with
  | |- context [show_document_preview E ?self ?path ?w0] =>
      assert (Hprev : fst (show_document_preview E self path w0) = Ok tt)
  end.
  { unfold show_document_preview, bind at 1, st. cbv zeta.
    unfold try_except, bind. rewrite read_document_run. simpl.
    rewrite lookup_insert_eq.
    destruct (docx_paragraphs E data) as [ps|e] eqn:Hd; [reflexivity|].
    now rewrite (Hdocx _ _ Hd). }
  match goal with
  | |- context [show_document_preview E ?self ?path ?w0] =>
      destruct (show_document_preview E self path w0) as [r w1]
  end.
  simpl in Hprev. subst r.
  now apply analyze_clicked_deletes.
Qed.

End Script.

(** ** The sample runs *)

(** A full run: upload, preview, review, clean result; the upload is gone
    at the end, one request went out, one client was built. *)
Example sample_run :
  let out := main Sample.externals Sample.session Sample.empty_world in
  fst out = Ok tt
  /\ fs (snd out) = ∅
  /\ length (sent (snd out)) = 1
  /\ clients (snd out) = ["sk-sample"]
  /\ ui (snd out)
     = page_top ++ upload_controls
       ++ [(Page, expander "Preview Extracted Text from Document" false);
           (Expander Page "Preview Extracted Text from Document",
            text_area "Extracted Text"
              (newline_separated ["WHEREAS, test; and"; ""; "RESOLVED, Done."])
              300);
           (Page, button "Analyze Resolution" "primary");
           (Page, spinner "Analyzing resolution...")]
       ++ clean_review (JStr "The resolution follows the template.").
Proof. vm_compute. repeat split. Qed.

(** Until the review is triggered the upload stays where it was written:
    the cleanup belongs to the review action. *)
Example upload_kept_until_review :
  fs (snd (main Sample.externals Sample.session_idle Sample.empty_world))
    !! temp_path = Some Sample.upload.
Proof. vm_compute. reflexivity. Qed.

(** Without the key the script stops after the error. *)
Example sample_run_without_key :
  main Sample.externals Sample.session_no_key Sample.empty_world
  = (Raise StopException,
     World ∅ (page_top ++ [missing_key_error]) [] [] []).
Proof. vm_compute. reflexivity. Qed.


(* ===================================================================== *)
(** * Worlds and steps                                                    *)
(* ===================================================================== *)

Section Worlds.

Lemma extend_nil (w : world) : extend w [] = w.
Proof. destruct w. unfold extend. simpl. now rewrite app_nil_r. Qed.

Lemma add_ui_extend (x : container * element) (w : world) :
  add_ui x w = extend w [x].
Proof. reflexivity. Qed.

Lemma extend_extend (w : world) (a b : list (container * element)) :
  extend (extend w a) b = extend w (a ++ b).
Proof. unfold extend. simpl. now rewrite app_assoc. Qed.

Lemma only_draws_refl (w : world) : only_draws w w.
Proof. exists []. now rewrite extend_nil. Qed.

Lemma only_draws_trans (a b c : world) :
  only_draws a b -> only_draws b c -> only_draws a c.
Proof.
  intros [s1 ->] [s2 ->]. exists (s1 ++ s2). apply extend_extend.
Qed.

Lemma only_draws_st (c : container) (x : element) : keeps only_draws (st c x).
Proof. intros w. now exists [(c, x)]. Qed.

Lemma bind_st {B} (c : container) (x : element) (k : unit -> M B) (w : world) :
  bind (st c x) k w = k tt (extend w [(c, x)]).
Proof. reflexivity. Qed.

Lemma bind_ok {A B} (m : M A) (k : A -> M B) (w w' : world) (a : A) :
  m w = (Ok a, w') -> bind m k w = k a w'.
Proof. intros H. unfold bind. now rewrite H. Qed.

Lemma bind_raise {A B} (m : M A) (k : A -> M B) (w w' : world) (e : exn) :
  m w = (Raise e, w') -> bind m k w = (Raise e, w').
Proof. intros H. unfold bind. now rewrite H. Qed.

Lemma bind_lift {A B} (r : result A) (k : A -> M B) (w : world) :
  bind (lift r) k w
  = match r with Ok a => k a w | Raise e => (Raise e, w) end.
Proof. unfold bind, lift. now destruct r. Qed.

End Worlds.

(* ===================================================================== *)
(** * Listing the violations                                              *)
(* ===================================================================== *)

Section Listing.

Variable E : Externals.

Lemma violation_panel_run (col : container) (j : json) (v : Violation)
    (w : world) :
  encodes j v ->
  violation_panel E col j w = (Ok tt, extend w (panel col v)).
Proof.
  intros (items & -> & Hloc & Hrule & Hdesc & Hsug).
  unfold violation_panel. cbn [getitem].
  rewrite Hloc, Hrule, Hdesc, Hsug. cbv zeta. cbn [format].
  rewrite !bind_lift, !bind_st, !bind_lift, !bind_st, !bind_lift, !bind_st.
  rewrite bind_lift. unfold st, add_ui, extend, panel. simpl.
  now rewrite <- !app_assoc.
Qed.

Lemma for_each_panels (col : container) (js : list json)
    (vs : list Violation) (w : world) :
  Forall2 encodes js vs ->
  for_each js (violation_panel E col) w = (Ok tt, extend w (panels col vs)).
Proof.
  intros H. revert w. induction H as [|j v js vs Hj _ IH]; intros w.
  - unfold panels. simpl. unfold ret. now rewrite extend_nil.
  - cbn [for_each].
    rewrite (bind_ok _ _ _ _ _ (violation_panel_run col j v w Hj)), IH.
    rewrite extend_extend. reflexivity.
Qed.

(** One column: the panels of its violations, or the indicator. *)
Lemma column_listed (col : container) (none_found : string)
    (js : list json) (vs : list Violation) (w : world) :
  Forall2 encodes js vs ->
  (if truthy (JList js) then
     bind (lift (Ok (JList js))) (fun again =>
     bind (lift (iterate again)) (fun violations =>
     for_each violations (violation_panel E col)))
   else st col (success none_found)) w
  = (Ok tt, extend w (column_body col none_found vs)).
Proof.
  intros H. destruct H as [|j v js vs Hj Hrest]; [reflexivity|].
  cbn [truthy iterate column_body]. rewrite !bind_lift.
  now apply for_each_panels, Forall2_cons.
Qed.

(** X4.  A result whose two lists hold well-formed violations is drawn
    in full: under each column heading one expanded panel per violation,
    in the order of the list, each with its rule, issue and suggestion
    (or the "no violations" indicator for an empty list), and then the
    overall assessment. *)
Theorem violations_are_listed
    (items : list (string * json)) (tj fj : list json)
    (template formatting : list Violation) (assessment : json) (w : world) :
  dict_get items "template_violations" = Some (JList tj) ->
  Forall2 encodes tj template ->
  dict_get items "formatting_violations" = Some (JList fj) ->
  Forall2 encodes fj formatting ->
  dict_get items "overall_assessment" = Some assessment ->
  display_results E (JDict items) w
  = (Ok tt, extend w (review_page template formatting assessment)).
Proof.
  intros Htv Ht Hfv Hf Hoa. unfold display_results. cbv zeta.
  cbn [getitem]. rewrite Htv, Hfv, Hoa.
  rewrite !bind_st, bind_lift.
  rewrite (bind_ok _ _ _ _ _ (column_listed _ _ _ _ _ Ht)).
  rewrite bind_st, bind_lift.
  rewrite (bind_ok _ _ _ _ _ (column_listed _ _ _ _ _ Hf)).
  rewrite bind_st, bind_lift. unfold st.
  rewrite ?add_ui_extend.
  rewrite !extend_extend. reflexivity.
Qed.

(** X5.  The columns test the lists for truth, not for being lists: a
    result that has [null], [false], [0], an empty string or an empty
    mapping in place of a list of violations is drawn like one without
    violations. *)
Theorem falsy_violations_shown_as_none
    (items : list (string * json)) (tv fv assessment : json) (w : world) :
  dict_get items "template_violations" = Some tv -> truthy tv = false ->
  dict_get items "formatting_violations" = Some fv -> truthy fv = false ->
  dict_get items "overall_assessment" = Some assessment ->
  display_results E (JDict items) w
  = (Ok tt, extend w (clean_review assessment)).
Proof.
  intros Htv Ht Hfv Hf Hoa. unfold display_results. cbv zeta.
  cbn [getitem]. rewrite Htv, Hfv, Hoa.
  rewrite !bind_st, bind_lift, Ht, !bind_st, bind_lift, Hf, !bind_st, bind_lift.
  unfold st. rewrite ?add_ui_extend.
  now rewrite !extend_extend.
Qed.

(** X6.  The loop stops at the first violation that has no location:
    the violations before it are drawn in full, then [KeyError] is
    raised, and neither the rest of the list, nor the second column, nor
    the assessment is drawn. *)
Theorem malformed_violation_stops_listing
    (items bad : list (string * json)) (good_js rest : list json)
    (good : list Violation) (w : world) :
  dict_get items "template_violations"
    = Some (JList (good_js ++ JDict bad :: rest)) ->
  Forall2 encodes good_js good ->
  dict_get bad "location" = None ->
  display_results E (JDict items) w
  = (Raise (KeyError "location"),
     extend w ([(Page, header "Review Results");
                (Page, columns 2);
                (Column 1, subheader "Template Violations")]
               ++ panels (Column 1) good)).
Proof.
  intros Htv Hgood Hbad. unfold display_results. cbv zeta.
  cbn [getitem]. rewrite Htv. rewrite !bind_st, bind_lift.
  assert (Htrue : truthy (JList (good_js ++ JDict bad :: rest)) = true)
    by now destruct good_js.
  rewrite Htrue.
  assert (Hloop : forall w0,
            for_each (good_js ++ JDict bad :: rest)
              (violation_panel E (Column 1)) w0
            = (Raise (KeyError "location"),
               extend w0 (panels (Column 1) good))).
  { clear Htv Htrue. induction Hgood as [|j v js vs Hj _ IH]; intros w0.
    - cbn [app for_each].
      assert (Hpanel : violation_panel E (Column 1) (JDict bad) w0
                       = (Raise (KeyError "location"), w0)).
      { unfold violation_panel. cbn [getitem]. now rewrite Hbad, bind_lift. }
      rewrite (bind_raise _ _ _ _ _ Hpanel). unfold panels. simpl.
      now rewrite extend_nil.
    - cbn [app for_each].
      rewrite (bind_ok _ _ _ _ _ (violation_panel_run _ j v w0 Hj)), IH.
      now rewrite extend_extend. }
  match goal with
  | |- bind ?block _ ?w0 = _ =>
      assert (Hblock : block w0
                = (Raise (KeyError "location"),
                   extend w0 (panels (Column 1) good)))
        by (rewrite !bind_lift; cbn [iterate]; rewrite ?bind_lift; apply Hloop);
      rewrite (bind_raise _ _ _ _ _ Hblock)
  end.
  now rewrite !extend_extend.
Qed.

End Listing.

(** A result with one template violation. *)
Lemma violations_are_listed_witness :
  dict_get Sample.result_with_violation "template_violations"
    = Some (JList [Sample.missing_header_json])
  /\ Forall2 encodes [Sample.missing_header_json] [Sample.missing_header]
  /\ display_results Sample.externals (JDict Sample.result_with_violation)
       Sample.empty_world
     = (Ok tt,
        extend Sample.empty_world
          (review_page [Sample.missing_header] [] (JStr "One violation."))).
Proof.
  assert (H : Forall2 encodes [Sample.missing_header_json] [Sample.missing_header]).
  { constructor; [|constructor]. eexists. repeat split; reflexivity. }
  split; [reflexivity|]. split; [exact H|].
  apply (violations_are_listed Sample.externals Sample.result_with_violation
           [Sample.missing_header_json] [] [Sample.missing_header] []
           (JStr "One violation.") Sample.empty_world);
    [reflexivity | exact H | reflexivity | constructor | reflexivity].
Defined.

(** A result with [null] for both lists. *)
Lemma falsy_violations_shown_as_none_witness :
  dict_get Sample.result_with_nulls "template_violations" = Some JNull
  /\ truthy JNull = false
  /\ display_results Sample.externals (JDict Sample.result_with_nulls)
       Sample.empty_world
     = (Ok tt,
        extend Sample.empty_world (clean_review (JStr "Nothing to report."))).
Proof.
  split; [reflexivity|]. split; [reflexivity|].
  apply (falsy_violations_shown_as_none Sample.externals
           Sample.result_with_nulls JNull JNull (JStr "Nothing to report.")
           Sample.empty_world); reflexivity.
Defined.

(** A list whose second violation has no location. *)
Lemma malformed_violation_stops_listing_witness :
  dict_get Sample.result_with_bad_violation "template_violations"
    = Some (JList ([Sample.missing_header_json]
                   ++ JDict [("rule", JStr "Date")]
                      :: [Sample.missing_header_json]))
  /\ dict_get [("rule", JStr "Date")] "location" = None
  /\ display_results Sample.externals
       (JDict Sample.result_with_bad_violation) Sample.empty_world
     = (Raise (KeyError "location"),
        extend Sample.empty_world
          ([(Page, header "Review Results");
            (Page, columns 2);
            (Column 1, subheader "Template Violations")]
           ++ panels (Column 1) [Sample.missing_header])).
Proof.
  split; [reflexivity|]. split; [reflexivity|].
  apply (malformed_violation_stops_listing Sample.externals
           Sample.result_with_bad_violation [("rule", JStr "Date")]
           [Sample.missing_header_json] [Sample.missing_header_json]
           [Sample.missing_header] Sample.empty_world);
    [reflexivity | | reflexivity].
  constructor; [|constructor]. eexists. repeat split; reflexivity.
Defined.

(* ===================================================================== *)
(** * Reading, previewing and reviewing                                   *)
(* ===================================================================== *)

Section Reading.

Variable E : Externals.

(** Reading leaves the world as it is, and looks at the files only. *)
Lemma read_document_world (self : ResolutionReviewer) (path : string)
    (w : world) :
  read_document E self path w = (fst (read_document E self path w), w).
Proof.
  rewrite read_document_run.
  destruct (fs w !! path) as [data|]; [|reflexivity].
  destruct (docx_paragraphs E data); reflexivity.
Qed.

Lemma read_document_same_files (self : ResolutionReviewer) (path : string)
    (w w' : world) :
  fs w' = fs w ->
  fst (read_document E self path w') = fst (read_document E self path w).
Proof.
  intros H. rewrite !read_document_run, H.
  destruct (fs w !! path) as [data|]; [|reflexivity].
  destruct (docx_paragraphs E data); reflexivity.
Qed.

Lemma show_document_preview_run (self : ResolutionReviewer) (path : string)
    (w : world) :
  show_document_preview E self path w
  = match fst (read_document E self path w) with
    | Ok T =>
        (Ok tt,
         extend w [(Page, expander preview_label false);
                   (Expander Page preview_label,
                    text_area "Extracted Text" T 300)])
    | Raise e =>
        if is_Exception e then
          (Ok tt,
           extend w [(Page, expander preview_label false); preview_error E e])
        else (Raise e, extend w [(Page, expander preview_label false)])
    end.
Proof.
  unfold show_document_preview. cbv zeta. rewrite bind_st.
  fold preview_label. unfold try_except, bind at 1.
  rewrite read_document_world.
  rewrite (read_document_same_files self path w) by reflexivity.
  destruct (fst (read_document E self path w)) as [T|e].
  - unfold st. rewrite ?add_ui_extend.
    now rewrite extend_extend.
  - destruct (is_Exception e); [|reflexivity].
    unfold st. rewrite ?add_ui_extend.
    now rewrite extend_extend.
Qed.

(** X1.  A document that cannot be read does not stop the preview: when
    the reader raises an exception of class [Exception], the preview
    shows its text inside the expander and returns normally. *)
Theorem preview_reports_unreadable
    (self : ResolutionReviewer) (path : string) (w : world) (e : exn) :
  fst (read_document E self path w) = Raise e ->
  is_Exception e = true ->
  show_document_preview E self path w
  = (Ok tt,
     extend w [(Page, expander preview_label false); preview_error E e]).
Proof.
  intros Hread He. now rewrite show_document_preview_run, Hread, He.
Qed.

Lemma show_document_preview_only_draws
    (self : ResolutionReviewer) (path : string) :
  keeps only_draws (show_document_preview E self path).
Proof.
  intros w. rewrite show_document_preview_run.
  destruct (fst (read_document E self path w)) as [T|e];
    [now eexists|].
  destruct (is_Exception e); now eexists.
Qed.

(** X2.  Whatever the document, the preview only draws: it writes no
    file, sends no request, builds no client and prints nothing, and
    what was on the page stays there. *)
Theorem preview_only_draws
    (self : ResolutionReviewer) (path : string) (w : world) :
  let w' := snd (show_document_preview E self path w) in
  fs w' = fs w /\ sent w' = sent w /\ clients w' = clients w
  /\ stdout w' = stdout w /\ exists shown, ui w' = ui w ++ shown.
Proof.
  destruct (show_document_preview_only_draws self path w) as [shown H].
  cbv zeta. rewrite H. repeat split. now exists shown.
Qed.

(** X7.  When the document cannot be read, [review_resolution] raises the
    reader's exception at once: no request is sent and nothing is
    printed. *)
Theorem unreadable_document_sends_nothing
    (self : ResolutionReviewer) (path : string) (w : world) (e : exn) :
  fst (read_document E self path w) = Raise e ->
  review_resolution E self path w = (Raise e, w).
Proof.
  intros Hread. rewrite review_resolution_run, read_document_world.
  now rewrite Hread.
Qed.

Lemma review_resolution_adds (self : ResolutionReviewer) (path : string)
    (w : world) :
  exists requests lines,
    snd (review_resolution E self path w)
    = World (fs w) (ui w) (sent w ++ requests) (clients w)
        (stdout w ++ lines)
    /\ length lines <= length requests <= 1
    /\ forall r, In r requests -> exists T, r = request_for self T.
Proof.
  assert (Hone : forall T r, In r [request_for self T] ->
                            exists T', r = request_for self T').
  { intros T r [<- | []]. now exists T. }
  assert (Hnone : exists requests lines,
            w = World (fs w) (ui w) (sent w ++ requests) (clients w)
                  (stdout w ++ lines)
            /\ length lines <= length requests <= 1
            /\ forall r, In r requests -> exists T, r = request_for self T).
  { exists [], []. rewrite !app_nil_r.
    split; [now destruct w|]. split; [simpl; lia | intros r []]. }
  rewrite review_resolution_run, read_document_world.
  destruct (fst (read_document E self path w)) as [T|e]; [|exact Hnone].
  destruct (token_counts E self T) as [n|e]; [|exact Hnone].
  - cbv zeta.
    destruct (chat_completions_create E _) as [response|e].
    + destruct (choices response) as [|c rest].
      * exists [request_for self T], []. cbn [snd].
        split; [unfold add_sent; cbn; now rewrite app_nil_r|].
        split; [simpl; lia | apply Hone].
      * exists [request_for self T],
          ["DEBUG: response.choices[0].message.content = "
           +:+ repr_content E (message_content c)].
        split; [now destruct (message_content c)|].
        split; [simpl; lia | apply Hone].
    + exists [request_for self T], []. cbn [snd].
      split; [unfold add_sent; cbn; now rewrite app_nil_r|].
      split; [simpl; lia | apply Hone].
Qed.

(** With the text read, the request, if the token counts let it go out,
    carries that text. *)
Lemma review_resolution_after_read (self : ResolutionReviewer)
    (path : string) (w : world) (T : string) :
  fst (read_document E self path w) = Ok T ->
  exists lines,
    snd (review_resolution E self path w)
    = World (fs w) (ui w)
        (sent w ++ match token_counts E self T with
                   | Ok _ => [request_for self T]
                   | Raise _ => []
                   end)
        (clients w) (stdout w ++ lines).
Proof.
  intros Hread. rewrite review_resolution_run, read_document_world, Hread.
  destruct (token_counts E self T) as [n|e].
  - cbv zeta.
    destruct (chat_completions_create E _) as [response|e].
    + destruct (choices response) as [|c rest].
      * exists []. cbn. now rewrite app_nil_r.
      * exists ["DEBUG: response.choices[0].message.content = "
                +:+ repr_content E (message_content c)].
        destruct (message_content c); reflexivity.
    + exists []. cbn. now rewrite app_nil_r.
  - exists []. cbn [snd]. rewrite !app_nil_r. now destruct w.
Qed.

(** X8.  Whatever happens, [review_resolution] touches neither the files
    nor the page nor the clients; it sends at most one request, and
    prints its debug line only after a request was sent. *)
Theorem review_resolution_effects
    (self : ResolutionReviewer) (path : string) (w : world) :
  let w' := snd (review_resolution E self path w) in
  fs w' = fs w /\ ui w' = ui w /\ clients w' = clients w
  /\ exists requests lines,
       sent w' = sent w ++ requests /\ stdout w' = stdout w ++ lines
       /\ length lines <= length requests <= 1.
Proof.
  destruct (review_resolution_adds self path w) as (rs & ls & H & Hlen & _).
  cbv zeta. rewrite H. repeat split. exists rs, ls. now repeat split.
Qed.

End Reading.

(** The upload that python-docx rejects. *)
Lemma preview_reports_unreadable_witness :
  let e := LibraryError true "File is not a zip file" in
  fst (read_document Sample.externals_corrupt Sample.reviewer
         "temp_resolution.docx" Sample.uploaded_world) = Raise e
  /\ is_Exception e = true
  /\ show_document_preview Sample.externals_corrupt Sample.reviewer
       "temp_resolution.docx" Sample.uploaded_world
     = (Ok tt,
        extend Sample.uploaded_world
          [(Page, expander preview_label false);
           preview_error Sample.externals_corrupt e]).
Proof.
  intros e.
  assert (Hread : fst (read_document Sample.externals_corrupt Sample.reviewer
                         "temp_resolution.docx" Sample.uploaded_world)
                  = Raise e) by (vm_compute; reflexivity).
  split; [exact Hread|]. split; [reflexivity|].
  exact (preview_reports_unreadable Sample.externals_corrupt Sample.reviewer
           "temp_resolution.docx" Sample.uploaded_world e Hread eq_refl).
Defined.

Lemma unreadable_document_sends_nothing_witness :
  let e := LibraryError true "File is not a zip file" in
  fst (read_document Sample.externals_corrupt Sample.reviewer
         "temp_resolution.docx" Sample.uploaded_world) = Raise e
  /\ review_resolution Sample.externals_corrupt Sample.reviewer
       "temp_resolution.docx" Sample.uploaded_world
     = (Raise e, Sample.uploaded_world).
Proof.
  intros e.
  assert (Hread : fst (read_document Sample.externals_corrupt Sample.reviewer
                         "temp_resolution.docx" Sample.uploaded_world)
                  = Raise e) by (vm_compute; reflexivity).
  split; [exact Hread|].
  exact (unreadable_document_sends_nothing Sample.externals_corrupt
           Sample.reviewer "temp_resolution.docx" Sample.uploaded_world e Hread).
Defined.

(* ===================================================================== *)
(** * The outcomes of the review action                                   *)
(* ===================================================================== *)

Section Outcomes.

Variable E : Externals.
Variable S : Session.

Lemma only_draws_bind {A B} (m : M A) (k : A -> M B) :
  keeps only_draws m -> (forall a, keeps only_draws (k a)) ->
  keeps only_draws (bind m k).
Proof. apply keeps_bind, only_draws_trans. Qed.

Lemma only_draws_violation_panel (col : container) (violation : json) :
  keeps only_draws (violation_panel E col violation).
Proof.
  unfold violation_panel.
  repeat first
    [ apply only_draws_st
    | apply (keeps_lift only_draws only_draws_refl)
    | apply only_draws_bind; [|intros ?; cbv zeta] ].
Qed.

Lemma only_draws_display_results (results : json) :
  keeps only_draws (display_results E results).
Proof.
  unfold display_results. cbv zeta.
  repeat first
    [ apply only_draws_st
    | apply (keeps_lift only_draws only_draws_refl)
    | apply (keeps_for_each only_draws only_draws_refl only_draws_trans);
      intros ?; apply only_draws_violation_panel
    | apply only_draws_bind; [|intros ?]
    | match goal with
      | |- keeps only_draws (if ?b then _ else _) => destruct b
      end ].
Qed.

(** The review action after the click, outcome by outcome. *)
Lemma analyze_clicked_run (self : ResolutionReviewer) (path p : string)
    (w : world) :
  button_clicked S = true ->
  analyze_and_display_results E S self path (Some "uploaded") (Some p) w
  = match review_resolution E self path (reviewing w) with
    | (Ok results, w1) =>
        match display_results E results w1 with
        | (Ok u, w2) => (Ok u, without_file p w2)
        | (Raise e, w2) =>
            if is_Exception e then
              (Ok tt, without_file p (extend w2 [review_error E e]))
            else (Raise e, without_file p w2)
        end
    | (Raise e, w1) =>
        if is_Exception e then
          (Ok tt, without_file p (extend w1 [review_error E e]))
        else (Raise e, without_file p w1)
    end.
Proof.
  intros Hc. rewrite (analyze_clicked _ _ _ _ _ _ _ Hc), try_finally_cleanup.
  unfold try_except. rewrite bind_st.
  change (extend (add_ui ?b w) [?s]) with (reviewing w).
  unfold bind.
  destruct (review_resolution E self path (reviewing w)) as [[results|e] w1].
  - destruct (display_results E results w1) as [[u|e] w2]; [reflexivity|].
    destruct (is_Exception e); reflexivity.
  - destruct (is_Exception e); reflexivity.
Qed.

Lemma analyze_not_clicked (self : ResolutionReviewer) (path : string)
    (src tmp : option string) (w : world) :
  button_clicked S = false ->
  analyze_and_display_results E S self path src tmp w
  = (Ok tt, extend w [(Page, button "Analyze Resolution" "primary")]).
Proof.
  intros Hc. unfold analyze_and_display_results, bind, st_button.
  now rewrite Hc.
Qed.

(** X3.  When [review_resolution] raises, nothing of a result is drawn.
    An exception of class [Exception] is shown as one inline error and
    the action ends normally; any other exception leaves the action
    without a message.  Either way the uploaded file is removed. *)
Theorem review_failure_is_shown
    (self : ResolutionReviewer) (path : string) (w w1 : world) (e : exn) :
  button_clicked S = true ->
  review_resolution E self path (reviewing w) = (Raise e, w1) ->
  analyze_and_display_results E S self path
    (Some "uploaded") (Some temp_path) w
  = if is_Exception e then
      (Ok tt, without_file temp_path (extend w1 [review_error E e]))
    else (Raise e, without_file temp_path w1).
Proof.
  intros Hc Hr. now rewrite (analyze_clicked_run _ _ _ _ Hc), Hr.
Qed.

(** After the click, the world is the one [review_resolution] left, with
    more on the page and without the file. *)
Lemma analyze_clicked_world (self : ResolutionReviewer) (path p : string)
    (w : world) :
  button_clicked S = true ->
  exists shown,
    snd (analyze_and_display_results E S self path
           (Some "uploaded") (Some p) w)
    = without_file p
        (extend (snd (review_resolution E self path (reviewing w))) shown).
Proof.
  intros Hc. rewrite (analyze_clicked_run _ _ _ _ Hc).
  destruct (review_resolution E self path (reviewing w)) as [[results|e] w1].
  - destruct (only_draws_display_results results w1) as [shown Hd].
    destruct (display_results E results w1) as [[u|e] w2];
      cbn [snd] in *; subst w2.
    + now exists shown.
    + destruct (is_Exception e); cbn [snd].
      * exists (shown ++ [review_error E e]). now rewrite extend_extend.
      * now exists shown.
  - destruct (is_Exception e); cbn [snd].
    + now eexists.
    + exists []. now rewrite extend_nil.
Qed.

End Outcomes.

(** The endpoint refuses the request. *)
Lemma review_failure_is_shown_witness :
  let e := LibraryError true "Error code: 429" in
  let run :=
    review_resolution Sample.externals_rate_limited Sample.reviewer
      "temp_resolution.docx" (reviewing Sample.uploaded_world) in
  button_clicked Sample.session = true
  /\ fst run = Raise e
  /\ analyze_and_display_results Sample.externals_rate_limited Sample.session
       Sample.reviewer "temp_resolution.docx"
       (Some "uploaded") (Some temp_path) Sample.uploaded_world
     = (Ok tt,
        without_file temp_path
          (extend (snd run) [review_error Sample.externals_rate_limited e])).
Proof.
  intros e run.
  assert (Hrun : run = (Raise e, snd run)) by (vm_compute; reflexivity).
  split; [reflexivity|]. split; [now rewrite Hrun|].
  exact (review_failure_is_shown Sample.externals_rate_limited Sample.session
           Sample.reviewer "temp_resolution.docx" Sample.uploaded_world
           (snd run) e eq_refl Hrun).
Defined.

(* ===================================================================== *)
(** * Whole runs                                                          *)
(* ===================================================================== *)

Section Runs.

Variable E : Externals.
Variable S : Session.

Lemma main_with_upload (w : world) (k : string) (data : list Byte.byte) :
  os_getenv S "OPENAI_API_KEY" = Some k -> str_truthy k = true ->
  uploaded_file S = Some data ->
  main E S w
  = bind (show_document_preview E (reviewer_of k) temp_path)
      (fun _ =>
         analyze_and_display_results E S (reviewer_of k) temp_path
           (Some "uploaded") (Some temp_path))
      (uploaded k data w).
Proof.
  intros Hkey Hk Hup. rewrite (main_with_key E S w k Hkey Hk).
  unfold upload_and_review, bind at 1.
  rewrite select_or_upload_file_run, Hup.
  change (str_truthy temp_path) with true. cbv iota.
  unfold bind at 1, __init__, add_client, uploaded. cbn [fs ui sent clients stdout].
  now rewrite <- app_assoc.
Qed.

Lemma main_no_upload_run (w : world) :
  opt_str_truthy (os_getenv S "OPENAI_API_KEY") = true ->
  uploaded_file S = None ->
  main E S w
  = (Ok tt, extend w (page_top ++ upload_controls ++ [upload_hint])).
Proof.
  intros Hkey Hup.
  destruct (os_getenv S "OPENAI_API_KEY") as [k|] eqn:Hk; [|discriminate].
  rewrite (main_with_key E S w k Hk Hkey).
  unfold upload_and_review, bind at 1.
  rewrite select_or_upload_file_run, Hup. unfold st, add_ui, extend.
  cbn [fs ui sent clients stdout]. now rewrite <- !app_assoc.
Qed.

(** X10.  With the key set and nothing uploaded, the script draws the
    upload control and the hint to upload a file, and does nothing else:
    no client is built, no file written, no request sent. *)
Theorem main_without_upload (w : world) :
  opt_str_truthy (os_getenv S "OPENAI_API_KEY") = true ->
  uploaded_file S = None ->
  main E S w
  = (Ok tt, extend w (page_top ++ upload_controls ++ [upload_hint])).
Proof. apply main_no_upload_run. Qed.

Lemma read_uploaded (self : ResolutionReviewer) (path : string) (w : world)
    (data : list Byte.byte) :
  fs w !! path = Some data ->
  fst (read_document E self path w)
  = match docx_paragraphs E data with
    | Ok ps => Ok (str_join nl (map text ps))
    | Raise e => Raise e
    end.
Proof.
  intros H. rewrite read_document_run, H.
  destruct (docx_paragraphs E data); reflexivity.
Qed.

Lemma uploaded_lookup (k : string) (data : list Byte.byte) (w : world)
    (shown : list (container * element)) :
  fs (extend (uploaded k data w) shown) !! temp_path = Some data.
Proof. apply lookup_insert_eq. Qed.

(** X12.  The upload outlives a run in which the review is not
    triggered: with the key set, a file uploaded and the button not
    clicked, the run ends with the upload at the temporary path and every
    other file as it was. *)
Theorem upload_stays_without_review (w : world) (data : list Byte.byte) :
  opt_str_truthy (os_getenv S "OPENAI_API_KEY") = true ->
  uploaded_file S = Some data ->
  button_clicked S = false ->
  fs (snd (main E S w)) = <[temp_path := data]> (fs w).
Proof.
  intros Hkey Hup Hc.
  destruct (os_getenv S "OPENAI_API_KEY") as [k|] eqn:Hk; [|discriminate].
  rewrite (main_with_upload w k data Hk Hkey Hup). unfold bind.
  destruct (show_document_preview_only_draws E (reviewer_of k) temp_path
              (uploaded k data w)) as [shown Hp].
  destruct (show_document_preview E (reviewer_of k) temp_path
              (uploaded k data w)) as [[u|e] w1]; cbn [snd] in *; subst w1.
  - now rewrite (analyze_not_clicked E S _ _ _ _ _ Hc).
  - reflexivity.
Qed.

(** X13.  What is previewed is what is sent.  In a run with the key set,
    a file uploaded that python-docx can read, and the button clicked,
    the text shown in the preview is the text put into the user prompt
    of the request, made under the key of the environment.  That one
    request goes out when the token counts of the prompts can be
    computed; when the tokenizer raises, none does.  One client is
    built, and the upload is gone at the end. *)
Theorem preview_and_request_share_text
    (w : world) (k : string) (data : list Byte.byte) (ps : list paragraph) :
  os_getenv S "OPENAI_API_KEY" = Some k -> str_truthy k = true ->
  uploaded_file S = Some data ->
  button_clicked S = true ->
  docx_paragraphs E data = Ok ps ->
  let T := str_join nl (map text ps) in
  let out := snd (main E S w) in
  sent out
  = sent w ++ match token_counts E (reviewer_of k) T with
              | Ok _ => [request_for (reviewer_of k) T]
              | Raise _ => []
              end
  /\ clients out = clients w ++ [k]
  /\ fs out = delete temp_path (fs w)
  /\ exists rest,
       ui out
       = ui w ++ page_top ++ upload_controls
           ++ [(Page, expander preview_label false);
               (Expander Page preview_label, text_area "Extracted Text" T 300);
               (Page, button "Analyze Resolution" "primary");
               (Page, spinner "Analyzing resolution...")]
           ++ rest.
Proof.
  intros Hkey Hk Hup Hc Hdocx T out. subst out.
  rewrite (main_with_upload w k data Hkey Hk Hup).
  assert (Hread : forall w0,
            fs w0 = <[temp_path := data]> (fs w) ->
            fst (read_document E (reviewer_of k) temp_path w0) = Ok T).
  { intros w0 Hfs. rewrite (read_uploaded _ _ _ data), Hdocx; [reflexivity|].
    rewrite Hfs. apply lookup_insert_eq. }
  rewrite (bind_ok _ _ _
             (extend (uploaded k data w)
                [(Page, expander preview_label false);
                 (Expander Page preview_label,
                  text_area "Extracted Text" T 300)]) tt)
    by (rewrite show_document_preview_run,
          (Hread (uploaded k data w) eq_refl); reflexivity).
  match goal with
  | |- context [analyze_and_display_results E S ?s ?p _ _ ?w0] =>
      destruct (analyze_clicked_world E S s p temp_path w0 Hc) as [shown Hs];
      rewrite Hs; clear Hs;
      destruct (review_resolution_after_read E s p (reviewing w0) T
                  (Hread (reviewing w0) eq_refl)) as [lines Hl];
      rewrite Hl; clear Hl
  end.
  cbn [without_file extend set_fs reviewing add_ui uploaded
       fs ui sent clients stdout].
  split; [reflexivity|]. split; [reflexivity|].
  split; [apply delete_insert_eq|].
  exists shown. now rewrite <- !app_assoc.
Qed.

(** X14.  A file that python-docx rejects is reported twice and sent
    nowhere: the preview shows the reader's error, the review action,
    once triggered, shows it again as its own error, no request goes out,
    the run ends normally and the upload is removed. *)
Theorem unreadable_upload_run
    (w : world) (k : string) (data : list Byte.byte) (e : exn) :
  os_getenv S "OPENAI_API_KEY" = Some k -> str_truthy k = true ->
  uploaded_file S = Some data ->
  button_clicked S = true ->
  docx_paragraphs E data = Raise e -> is_Exception e = true ->
  main E S w
  = (Ok tt,
     without_file temp_path
       (extend (uploaded k data w)
          [(Page, expander preview_label false);
           preview_error E e;
           (Page, button "Analyze Resolution" "primary");
           (Page, spinner "Analyzing resolution...");
           review_error E e])).
Proof.
  intros Hkey Hk Hup Hc Hdocx He.
  rewrite (main_with_upload w k data Hkey Hk Hup).
  assert (Hread : forall w0,
            fs w0 = <[temp_path := data]> (fs w) ->
            fst (read_document E (reviewer_of k) temp_path w0) = Raise e).
  { intros w0 Hfs. rewrite (read_uploaded _ _ _ data), Hdocx; [reflexivity|].
    rewrite Hfs. apply lookup_insert_eq. }
  rewrite (bind_ok _ _ _
             (extend (uploaded k data w)
                [(Page, expander preview_label false); preview_error E e]) tt)
    by (rewrite show_document_preview_run,
          (Hread (uploaded k data w) eq_refl), He; reflexivity).
  rewrite (analyze_clicked_run E S _ _ _ _ Hc).
  rewrite review_resolution_run, read_document_world.
  rewrite Hread by reflexivity. rewrite He.
  unfold reviewing. rewrite ?add_ui_extend.
  now rewrite !extend_extend.
Qed.

(** X16.  A run sends at most one request, and sends one only with the
    key set, a file uploaded and the button clicked; the request goes to
    the fixed model under the key of the environment, asks for a JSON
    object and carries the system prompt and a user prompt. *)
Theorem requests_of_a_run (w : world) :
  exists requests,
    sent (snd (main E S w)) = sent w ++ requests
    /\ length requests <= 1
    /\ Forall (well_formed_request S) requests
    /\ (requests = []
        \/ (opt_str_truthy (os_getenv S "OPENAI_API_KEY") = true
            /\ is_Some (uploaded_file S)
            /\ button_clicked S = true)).
Proof.
  assert (Hnone : forall w', sent w' = sent w ->
            exists requests,
              sent w' = sent w ++ requests /\ length requests <= 1
              /\ Forall (well_formed_request S) requests
              /\ (requests = []
                  \/ (opt_str_truthy (os_getenv S "OPENAI_API_KEY") = true
                      /\ is_Some (uploaded_file S)
                      /\ button_clicked S = true))).
  { intros w' Hs. exists []. rewrite app_nil_r.
    repeat split; [exact Hs | simpl; lia | constructor | now left]. }
  destruct (opt_str_truthy (os_getenv S "OPENAI_API_KEY")) eqn:Hkey.
  - destruct (os_getenv S "OPENAI_API_KEY") as [k|] eqn:Hk; [|discriminate].
    destruct (uploaded_file S) as [data|] eqn:Hup.
    + rewrite (main_with_upload w k data Hk Hkey Hup). unfold bind.
      destruct (show_document_preview_only_draws E (reviewer_of k) temp_path
                  (uploaded k data w)) as [shown Hp].
      destruct (show_document_preview E (reviewer_of k) temp_path
                  (uploaded k data w)) as [[u|e1] w1];
        cbn [snd] in *; subst w1; [|now apply Hnone].
      destruct (button_clicked S) eqn:Hc.
      * match goal with
        | |- context [analyze_and_display_results E S ?s ?p _ _ ?w0] =>
            destruct (analyze_clicked_world E S s p temp_path w0 Hc)
              as [shown' Hs];
            rewrite Hs; clear Hs;
            destruct (review_resolution_adds E s p (reviewing w0))
              as (rs & ls & Hl & [_ Hlen] & Hrs);
            rewrite Hl; clear Hl
        end.
        exists rs. split; [reflexivity|]. split; [exact Hlen|].
        split; [|right; repeat split; eauto].
        apply Forall_forall. intros r Hr.
        apply list_elem_of_In in Hr. destruct (Hrs r Hr) as [T ->].
        unfold well_formed_request. cbn.
        repeat split; [exact Hk | now exists T].
      * rewrite (analyze_not_clicked E S _ _ _ _ _ Hc). now apply Hnone.
    + rewrite (main_no_upload_run w) by (rewrite ?Hk; assumption).
      now apply Hnone.
  - rewrite (main_without_key E S w Hkey). now apply Hnone.
Qed.

End Runs.

(** ** Sample runs of the properties above *)

Lemma main_without_upload_witness :
  opt_str_truthy (os_getenv Sample.session_no_upload "OPENAI_API_KEY") = true
  /\ uploaded_file Sample.session_no_upload = None
  /\ main Sample.externals Sample.session_no_upload Sample.empty_world
     = (Ok tt,
        extend Sample.empty_world
          (page_top ++ upload_controls ++ [upload_hint])).
Proof.
  assert (Hkey : opt_str_truthy
                   (os_getenv Sample.session_no_upload "OPENAI_API_KEY") = true)
    by (vm_compute; reflexivity).
  split; [exact Hkey|]. split; [reflexivity|].
  exact (main_without_upload Sample.externals Sample.session_no_upload
           Sample.empty_world Hkey eq_refl).
Defined.

Lemma upload_stays_without_review_witness :
  opt_str_truthy (os_getenv Sample.session_idle "OPENAI_API_KEY") = true
  /\ uploaded_file Sample.session_idle = Some Sample.upload
  /\ button_clicked Sample.session_idle = false
  /\ fs (snd (main Sample.externals Sample.session_idle Sample.empty_world))
     = <[temp_path := Sample.upload]> (fs Sample.empty_world).
Proof.
  assert (Hkey : opt_str_truthy
                   (os_getenv Sample.session_idle "OPENAI_API_KEY") = true)
    by (vm_compute; reflexivity).
  split; [exact Hkey|]. split; [reflexivity|]. split; [reflexivity|].
  exact (upload_stays_without_review Sample.externals Sample.session_idle
           Sample.empty_world Sample.upload Hkey eq_refl eq_refl).
Defined.

Lemma preview_and_request_share_text_witness :
  let T := str_join nl (map text Sample.paragraphs) in
  let out := snd (main Sample.externals Sample.session Sample.empty_world) in
  os_getenv Sample.session "OPENAI_API_KEY" = Some "sk-sample"
  /\ docx_paragraphs Sample.externals Sample.upload = Ok Sample.paragraphs
  /\ sent out = sent Sample.empty_world ++ [request_for (reviewer_of "sk-sample") T]
  /\ clients out = clients Sample.empty_world ++ ["sk-sample"]
  /\ fs out = delete temp_path (fs Sample.empty_world).
Proof.
  intros T out.
  assert (Hkey : os_getenv Sample.session "OPENAI_API_KEY" = Some "sk-sample")
    by (vm_compute; reflexivity).
  split; [exact Hkey|]. split; [reflexivity|].
  destruct (preview_and_request_share_text Sample.externals Sample.session
              Sample.empty_world "sk-sample" Sample.upload Sample.paragraphs
              Hkey eq_refl eq_refl eq_refl eq_refl)
    as (Hsent & Hclients & Hfs & _).
  fold T in Hsent.
  destruct (token_counts Sample.externals (reviewer_of "sk-sample") T)
    as [n|e] eqn:Hn; [|vm_compute in Hn; discriminate Hn].
  split; [exact Hsent|]. split; [exact Hclients | exact Hfs].
Defined.

Lemma unreadable_upload_run_witness :
  let e := LibraryError true "File is not a zip file" in
  os_getenv Sample.session "OPENAI_API_KEY" = Some "sk-sample"
  /\ docx_paragraphs Sample.externals_corrupt Sample.upload = Raise e
  /\ is_Exception e = true
  /\ main Sample.externals_corrupt Sample.session Sample.empty_world
     = (Ok tt,
        without_file temp_path
          (extend (uploaded "sk-sample" Sample.upload Sample.empty_world)
             [(Page, expander preview_label false);
              preview_error Sample.externals_corrupt e;
              (Page, button "Analyze Resolution" "primary");
              (Page, spinner "Analyzing resolution...");
              review_error Sample.externals_corrupt e])).
Proof.
  intros e.
  assert (Hkey : os_getenv Sample.session "OPENAI_API_KEY" = Some "sk-sample")
    by (vm_compute; reflexivity).
  split; [exact Hkey|]. split; [reflexivity|]. split; [reflexivity|].
  exact (unreadable_upload_run Sample.externals_corrupt Sample.session
           Sample.empty_world "sk-sample" Sample.upload e
           Hkey eq_refl eq_refl eq_refl eq_refl eq_refl).
Defined.

(** The three paragraphs of the sample document come back as three
    lines, the empty one included. *)
Lemma read_document_lines_witness :
  fs Sample.uploaded_world !! "temp_resolution.docx" = Some Sample.upload
  /\ docx_paragraphs Sample.externals Sample.upload = Ok Sample.paragraphs
  /\ exists T,
       read_document Sample.externals Sample.reviewer "temp_resolution.docx"
         Sample.uploaded_world = (Ok T, Sample.uploaded_world)
       /\ split_lines T = ["WHEREAS, test; and"; ""; "RESOLVED, Done."].
Proof.
  assert (Hfile : fs Sample.uploaded_world !! "temp_resolution.docx"
                  = Some Sample.upload) by (vm_compute; reflexivity).
  split; [exact Hfile|]. split; [reflexivity|].
  apply (read_document_lines Sample.externals Sample.reviewer
           "temp_resolution.docx" Sample.uploaded_world Sample.upload
           (Paragraph "WHEREAS, test; and")
           [Paragraph ""; Paragraph "RESOLVED, Done."] Hfile eq_refl).
  repeat constructor.
Defined.

(** A whole run in which the review is triggered. *)
Lemma main_review_leaves_no_upload_witness :
  os_getenv Sample.session "OPENAI_API_KEY" = Some "sk-sample"
  /\ uploaded_file Sample.session = Some Sample.upload
  /\ button_clicked Sample.session = true
  /\ fs (snd (main Sample.externals Sample.session Sample.empty_world))
     !! temp_path = None.
Proof.
  assert (Hkey : os_getenv Sample.session "OPENAI_API_KEY" = Some "sk-sample")
    by (vm_compute; reflexivity).
  split; [exact Hkey|]. split; [reflexivity|]. split; [reflexivity|].
  apply (main_review_leaves_no_upload Sample.externals Sample.session
           Sample.empty_world "sk-sample" Sample.upload
           Hkey eq_refl eq_refl eq_refl).
  intros d e H. discriminate H.
Defined.

(* ===================================================================== *)
(** * Files of other sources                                              *)
(* ===================================================================== *)

Section OtherSources.

Variable E : Externals.
Variable S : Session.

Lemma same_files_trans (a b c : world) :
  same_files a b -> same_files b c -> same_files a c.
Proof. unfold same_files. congruence. Qed.

Lemma same_files_st (c : container) (x : element) : keeps same_files (st c x).
Proof. intros w. reflexivity. Qed.

Lemma same_files_review_resolution (self : ResolutionReviewer) (path : string) :
  keeps same_files (review_resolution E self path).
Proof.
  intros w. destruct (review_resolution_adds E self path w)
    as (rs & ls & H & _).
  unfold same_files. now rewrite H.
Qed.

Lemma same_files_display_results (results : json) :
  keeps same_files (display_results E results).
Proof.
  intros w. destruct (only_draws_display_results E results w) as [shown H].
  unfold same_files. now rewrite H.
Qed.

(** The [finally] block does nothing for a file that was not uploaded. *)
Lemma cleanup_other_source (src tmp : option string) (w : world) :
  src <> Some "uploaded" -> cleanup src tmp w = (Ok tt, w).
Proof.
  intros Hsrc. unfold cleanup. destruct src as [s|]; [|reflexivity].
  destruct (String.eqb_spec s "uploaded") as [-> | _]; [|reflexivity].
  now contradiction Hsrc.
Qed.

(** X17.  The review action removes only what was uploaded: called for a
    file of any other source, it leaves every file as it was, the
    reviewed file included, whatever the review does. *)
Theorem other_sources_are_kept
    (self : ResolutionReviewer) (path : string) (src tmp : option string)
    (w : world) :
  src <> Some "uploaded" ->
  fs (snd (analyze_and_display_results E S self path src tmp w)) = fs w.
Proof.
  intros Hsrc. destruct (button_clicked S) eqn:Hc.
  - rewrite (analyze_clicked E S _ _ _ _ _ Hc). unfold try_finally.
    match goal with
    | |- context [try_except ?b ?h ?w0] =>
        assert (Hb : keeps same_files (try_except b h));
        [|specialize (Hb w0); destruct (try_except b h w0) as [r w1]]
    end.
    + apply keeps_try_except;
        [apply same_files_trans | | intros e; apply same_files_st].
      apply keeps_bind;
        [apply same_files_trans | apply same_files_st | intros _].
      apply keeps_bind;
        [apply same_files_trans | apply same_files_review_resolution
        | apply same_files_display_results].
    + rewrite (cleanup_other_source _ _ _ Hsrc). exact Hb.
  - now rewrite (analyze_not_clicked E S _ _ _ _ _ Hc).
Qed.

End OtherSources.

(** The review of a file that was found, not uploaded. *)
Lemma other_sources_are_kept_witness :
  Some "selected" <> Some "uploaded"
  /\ fs (snd (analyze_and_display_results Sample.externals Sample.session
                Sample.reviewer "temp_resolution.docx"
                (Some "selected") None Sample.uploaded_world))
     = fs Sample.uploaded_world.
Proof.
  assert (H : Some "selected" <> Some "uploaded") by discriminate.
  split; [exact H|].
  exact (other_sources_are_kept Sample.externals Sample.session
           Sample.reviewer "temp_resolution.docx" (Some "selected") None
           Sample.uploaded_world H).
Defined.
